(** * R2X branch models: a shallow embedding of [r2x/models/branch.py]

    The module declares a hierarchy of pydantic models.  A model class is
    embedded as a record of its fields, its constructor as a function from
    the keyword arguments to a [Validation] result that either holds the
    instance or the list of errors pydantic collects, and its field
    serializers and [example] factory as plain functions. *)

From Stdlib Require Import QArith Bool List String Lia.
Import ListNotations.
Open Scope string_scope.
Open Scope list_scope.

Set Implicit Arguments.

(** ** Python floats

    The module only compares magnitudes (against 0, and a range's bounds
    against each other); it does no arithmetic.  A finite float is a
    rational, and the three special values are kept apart because a
    comparison with [nan] is always false. *)

Inductive pyfloat : Type :=
| Fin (q : Q)
| PosInf
| NegInf
| NaN.

(** [a <= b] on Python floats. *)
Definition float_le (a b : pyfloat) : bool :=
  match a, b with
  | NaN, _ | _, NaN => false
  | NegInf, _ => true
  | _, PosInf => true
  | PosInf, _ => false
  | _, NegInf => false
  | Fin p, Fin q => Qle_bool p q
  end.

(** [a < b] on Python floats. *)
Definition float_lt (a b : pyfloat) : bool :=
  match a, b with
  | NaN, _ | _, NaN => false
  | PosInf, _ => false
  | _, NegInf => false
  | NegInf, _ => true
  | _, PosInf => true
  | Fin p, Fin q => negb (Qle_bool q p)
  end.

Definition zero : pyfloat := Fin 0.

(** ** Validation results

    pydantic validates every field and raises one [ValidationError] that
    lists an entry per offending field, in field order. *)

(** The [type] of a pydantic error entry.  [range_violation] is the entry of
    the range type, which the specification adds. *)
Inductive ErrorType : Type :=
| missing
| greater_than_equal
| less_than_equal
| is_instance_of
| string_too_short
| range_violation.

Record ErrorDetails : Type := { loc : string; type : ErrorType }.

(** Modelled from the spec: the error taxonomy of section 7, which is not
    part of [branch.py]; each pydantic entry type is filed under the class
    the specification describes it by. *)
Inductive ErrorClass : Type :=
| MissingFieldError
| RangeViolationError
| SignConstraintError
| UnitMismatchError.

Definition taxonomy (t : ErrorType) : option ErrorClass :=
  match t with
  | missing => Some MissingFieldError
  | greater_than_equal | less_than_equal => Some SignConstraintError
  | range_violation => Some RangeViolationError
  | is_instance_of | string_too_short => None
  end.

Inductive Validation (A : Type) : Type :=
| Valid (a : A)
| Invalid (errors : list ErrorDetails).

Arguments Valid {A} a.
Arguments Invalid {A} errors.

Definition fmap {A B : Type} (f : A -> B) (x : Validation A) : Validation B :=
  match x with
  | Valid a => Valid (f a)
  | Invalid e => Invalid e
  end.

(** Applicative composition: the errors of all fields are kept, in order. *)
Definition ap {A B : Type} (f : Validation (A -> B)) (x : Validation A)
  : Validation B :=
  match f, x with
  | Valid g, Valid a => Valid (g a)
  | Valid _, Invalid e => Invalid e
  | Invalid e, Valid _ => Invalid e
  | Invalid e1, Invalid e2 => Invalid (e1 ++ e2)
  end.

Notation "f <*> x" := (ap f x) (at level 50, left associativity).

(** [fails_with v l c]: construction failed and the error names field [l]
    with an entry of class [c]. *)
Definition fails_with {A : Type} (v : Validation A) (l : string)
  (c : ErrorClass) : Prop :=
  exists errs t,
    v = Invalid errs /\ In {| loc := l; type := t |} errs /\
    taxonomy t = Some c.

(** ** Keyword arguments and field declarations *)

(** A keyword argument is either left out of the call or passed. *)
Inductive kwarg (A : Type) : Type :=
| Omitted
| Passed (a : A).

Arguments Omitted {A}.
Arguments Passed {A} a.

(** A field without a default. *)
Definition required {A : Type} (check : string -> A -> Validation A)
  (l : string) (k : kwarg A) : Validation A :=
  match k with
  | Omitted => Invalid [ {| loc := l; type := missing |} ]
  | Passed a => check l a
  end.

(** A field with a default; pydantic does not validate the default. *)
Definition with_default {A : Type} (check : string -> A -> Validation A)
  (default : A) (l : string) (k : kwarg A) : Validation A :=
  match k with
  | Omitted => Valid default
  | Passed a => check l a
  end.

(** [T | None]: [None] is accepted as it is. *)
Definition nullable {A : Type} (check : string -> A -> Validation A)
  (l : string) (o : option A) : Validation (option A) :=
  match o with
  | None => Valid None
  | Some a => fmap Some (check l a)
  end.

(** A field with no constraint. *)
Definition any {A : Type} (l : string) (a : A) : Validation A := Valid a.

(** [NonNegativeFloat] and [NonPositiveFloat] of pydantic. *)
Definition NonNegativeFloat (l : string) (v : pyfloat) : Validation pyfloat :=
  if float_le zero v then Valid v
  else Invalid [ {| loc := l; type := greater_than_equal |} ].

Definition NonPositiveFloat (l : string) (v : pyfloat) : Validation pyfloat :=
  if float_le v zero then Valid v
  else Invalid [ {| loc := l; type := less_than_equal |} ].

(** ** Quantities ([r2x.units]) *)

(** Modelled from the spec: [r2x.units] is not part of the sources; a
    quantity is a magnitude tagged with a unit (section 3). *)
Record Quantity : Type := { magnitude : pyfloat; units : string }.

Definition ActivePower (m : pyfloat) (u : string) : Quantity :=
  {| magnitude := m; units := u |}.

Definition Percentage (m : pyfloat) (u : string) : Quantity :=
  {| magnitude := m; units := u |}.

(** [Field(ge=0)] and [Field(le=0)] on a quantity compare its magnitude. *)
Definition ge_0 (l : string) (v : Quantity) : Validation Quantity :=
  if float_le zero (magnitude v) then Valid v
  else Invalid [ {| loc := l; type := greater_than_equal |} ].

Definition le_0 (l : string) (v : Quantity) : Validation Quantity :=
  if float_le (magnitude v) zero then Valid v
  else Invalid [ {| loc := l; type := less_than_equal |} ].

(** ** The range type ([r2x.models.core.MinMax]) *)

Module MinMax.

Record t : Type := { min : pyfloat; max : pyfloat }.

(** Modelled from the spec: [r2x.models.core] is not part of the sources;
    section 3 gives the range the invariant [min <= max], to be enforced
    at construction, a violation being a validation error (section 7:
    [RangeViolationError]). *)
Definition new (lo hi : pyfloat) : Validation t :=
  if float_le lo hi then Valid {| min := lo; max := hi |}
  else Invalid [ {| loc := "MinMax"; type := range_violation |} ].

End MinMax.

(** ** Python values produced by serialization *)

#[warnings="-register-all"] Inductive pyobject : Type :=
| PyNone
| PyFloat (v : pyfloat)
| PyStr (s : string)
| PyQuantity (q : Quantity)
| PyDict (items : list (string * pyobject)).

Definition dict : Type := list (string * pyobject).

(** [d.get(k)]: the value stored under key [k], if the key is there. *)
Fixpoint get (k : string) (d : dict) : option pyobject :=
  match d with
  | [] => None
  | (k', v) :: d' => if String.eqb k k' then Some v else get k d'
  end.

(** The default serialization of an optional float or quantity. *)
Definition dump_float (o : option pyfloat) : pyobject :=
  match o with None => PyNone | Some v => PyFloat v end.

Definition dump_quantity (o : option Quantity) : pyobject :=
  match o with None => PyNone | Some q => PyQuantity q end.

(** [model_dump(exclude_none=...)]: with [exclude_none] the fields whose
    value is [None] are left out of the output. *)
Definition is_none {A : Type} (o : option A) : bool :=
  match o with None => true | Some _ => false end.

Definition entry {A : Type} (exclude_none : bool) (k : string)
  (value : option A) (serialized : pyobject) : dict :=
  if exclude_none && is_none value then [] else [ (k, serialized) ].

(** ** Topology ([r2x.models.topology]) *)

(** Modelled from the spec: [r2x.models.topology] is not part of the
    sources; section 2 has buses in a generic, an AC and a DC variant, and
    areas, each an identified entity the branch refers to. *)
Inductive BusClass : Type := Bus_cls | ACBus_cls | DCBus_cls.

(** The fields of a bus other than its name are declared in the absent
    module, so a bus carries its own [model_dump], for either value of
    [exclude_none]. *)
Record Bus : Type := {
  bus_class : BusClass;
  bus_name : string;
  bus_model_dump : bool -> dict
}.

Record Area : Type := { area_name : string }.

(** [issubclass c d] for the bus classes: [ACBus] and [DCBus] extend [Bus]. *)
Definition issubclass (c d : BusClass) : bool :=
  match d, c with
  | Bus_cls, _ => true
  | ACBus_cls, ACBus_cls => true
  | DCBus_cls, DCBus_cls => true
  | _, _ => false
  end.

(** A field annotated with a bus class takes an instance of that class. *)
Definition instance_of (cls : BusClass) (l : string) (b : Bus)
  : Validation Bus :=
  if issubclass (bus_class b) cls then Valid b
  else Invalid [ {| loc := l; type := is_instance_of |} ].

Definition ACBus_example : Bus :=
  {| bus_class := ACBus_cls;
     bus_name := "ExampleACBus";
     bus_model_dump := fun _ => [ ("name", PyStr "ExampleACBus") ] |}.

Definition DCBus_example : Bus :=
  {| bus_class := DCBus_cls;
     bus_name := "ExampleDCBus";
     bus_model_dump := fun _ => [ ("name", PyStr "ExampleDCBus") ] |}.

Definition Area_example : Area := {| area_name := "ExampleArea" |}.

(** A nested model is dumped by its own [model_dump], with the same
    [exclude_none]. *)
Definition dump_bus (exclude_none : bool) (b : Bus) : pyobject :=
  PyDict (bus_model_dump b exclude_none).

(** ** The device base ([r2x.models.core.Device]) *)

(** The fields of a class are declared once, over the shape [F] of a field:
    [kwarg] for the keyword arguments of the constructor, the identity for
    the validated instance. *)
Definition instance : Type -> Type := fun X => X.

Module Device.

Record fields (F : Type -> Type) : Type := { name : F string }.

Definition kwargs : Type := fields kwarg.
Definition t : Type := fields instance.

(** Modelled from the spec: [Device] is not part of the sources; section
    4.3 requires of every entity a [name] that is present and not empty. *)
Definition non_empty (l : string) (s : string) : Validation string :=
  if String.eqb s "" then Invalid [ {| loc := l; type := string_too_short |} ]
  else Valid s.

Definition new (a : kwargs) : Validation t :=
  Valid (@Build_fields instance) <*> required non_empty "name" (name a).

Definition model_dump (self : t) : dict :=
  [ ("name", PyStr (name self)) ].

End Device.

(** ** [class Branch(Device)] *)

Module Branch.

Record fields (F : Type -> Type) : Type := { base : Device.fields F }.

Definition kwargs : Type := fields kwarg.
Definition t : Type := fields instance.

Definition new (a : kwargs) : Validation t :=
  Valid (@Build_fields instance) <*> Device.new (base a).

Definition model_dump (self : t) : dict := Device.model_dump (base self).

Definition example : Validation t :=
  new {| base := {| Device.name := Passed "ExampleBranch" |} |}.

End Branch.

(** ** [class ACBranch(Branch)] *)

Module ACBranch.

Record fields (F : Type -> Type) : Type := {
  base : Branch.fields F;
  from_bus : F Bus;
  to_bus : F Bus;
  r : F (option pyfloat);
  x : F (option pyfloat);
  primary_shunt : F (option pyfloat);
  rating : F (option Quantity);
  active_power_flow : F (option Quantity);
  reactive_power_flow : F (option Quantity);
  angle_limits : F (option MinMax.t)
}.

Definition kwargs : Type := fields kwarg.
Definition t : Type := fields instance.

Definition new (a : kwargs) : Validation t :=
  Valid (@Build_fields instance)
    <*> Branch.new (base a)
    <*> required (instance_of ACBus_cls) "from_bus" (from_bus a)
    <*> required (instance_of ACBus_cls) "to_bus" (to_bus a)
    <*> with_default (nullable any) None "r" (r a)
    <*> with_default (nullable any) None "x" (x a)
    <*> with_default (nullable any) None "primary_shunt" (primary_shunt a)
    <*> with_default (nullable ge_0) None "rating" (rating a)
    <*> with_default (nullable ge_0) None "active_power_flow"
          (active_power_flow a)
    <*> with_default (nullable ge_0) None "reactive_power_flow"
          (reactive_power_flow a)
    <*> with_default (nullable any) None "angle_limits" (angle_limits a).

(** The function ends without a [return] when [min_max] is [None], so it
    returns [None] then. *)
Definition serialize_angle_limits (self : t) (min_max : option MinMax.t)
  : pyobject :=
  match min_max with
  | Some m => PyDict [ ("min", PyFloat (MinMax.min m));
                       ("max", PyFloat (MinMax.max m)) ]
  | None => PyNone
  end.

Definition model_dump (exclude_none : bool) (self : t) : dict :=
  Branch.model_dump (base self)
    ++ [ ("from_bus", dump_bus exclude_none (from_bus self)) ]
    ++ [ ("to_bus", dump_bus exclude_none (to_bus self)) ]
    ++ entry exclude_none "r" (r self) (dump_float (r self))
    ++ entry exclude_none "x" (x self) (dump_float (x self))
    ++ entry exclude_none "primary_shunt" (primary_shunt self)
         (dump_float (primary_shunt self))
    ++ entry exclude_none "rating" (rating self) (dump_quantity (rating self))
    ++ entry exclude_none "active_power_flow" (active_power_flow self)
         (dump_quantity (active_power_flow self))
    ++ entry exclude_none "reactive_power_flow" (reactive_power_flow self)
         (dump_quantity (reactive_power_flow self))
    ++ entry exclude_none "angle_limits" (angle_limits self)
         (serialize_angle_limits self (angle_limits self)).

End ACBranch.

(** ** [class MonitoredLine(ACBranch)] *)

Module MonitoredLine.

Record fields (F : Type -> Type) : Type := {
  base : ACBranch.fields F;
  rating_up : F (option Quantity);
  rating_down : F (option Quantity);
  losses : F (option Quantity)
}.

Definition kwargs : Type := fields kwarg.
Definition t : Type := fields instance.

Definition new (a : kwargs) : Validation t :=
  Valid (@Build_fields instance)
    <*> ACBranch.new (base a)
    <*> with_default (nullable ge_0) None "rating_up" (rating_up a)
    <*> with_default (nullable le_0) None "rating_down" (rating_down a)
    <*> with_default (nullable any) None "losses" (losses a).

Definition model_dump (exclude_none : bool) (self : t) : dict :=
  ACBranch.model_dump exclude_none (base self)
    ++ entry exclude_none "rating_up" (rating_up self)
         (dump_quantity (rating_up self))
    ++ entry exclude_none "rating_down" (rating_down self)
         (dump_quantity (rating_down self))
    ++ entry exclude_none "losses" (losses self)
         (dump_quantity (losses self)).

Definition example : Validation t :=
  new {|
    base := {|
      ACBranch.base :=
        {| Branch.base := {| Device.name := Passed "ExampleMonitoredLine" |} |};
      ACBranch.from_bus := Passed ACBus_example;
      ACBranch.to_bus := Passed ACBus_example;
      ACBranch.r := Omitted;
      ACBranch.x := Omitted;
      ACBranch.primary_shunt := Omitted;
      ACBranch.rating := Passed (Some (ActivePower (Fin 100) "MW"));
      ACBranch.active_power_flow := Omitted;
      ACBranch.reactive_power_flow := Omitted;
      ACBranch.angle_limits := Omitted
    |};
    rating_up := Passed (Some (ActivePower (Fin 100) "MW"));
    rating_down := Passed (Some (ActivePower (Fin (-100)) "MW"));
    losses := Passed (Some (Percentage (Fin 10) "%"))
  |}.

End MonitoredLine.

(** ** [class Line(ACBranch)] *)

Module Line.

Record fields (F : Type -> Type) : Type := { base : ACBranch.fields F }.

Definition kwargs : Type := fields kwarg.
Definition t : Type := fields instance.

Definition new (a : kwargs) : Validation t :=
  Valid (@Build_fields instance) <*> ACBranch.new (base a).

Definition model_dump (exclude_none : bool) (self : t) : dict :=
  ACBranch.model_dump exclude_none (base self).

Definition example : Validation t :=
  new {|
    base := {|
      ACBranch.base :=
        {| Branch.base := {| Device.name := Passed "ExampleLine" |} |};
      ACBranch.from_bus := Passed ACBus_example;
      ACBranch.to_bus := Passed ACBus_example;
      ACBranch.r := Omitted;
      ACBranch.x := Omitted;
      ACBranch.primary_shunt := Omitted;
      ACBranch.rating := Passed (Some (ActivePower (Fin 100) "MW"));
      ACBranch.active_power_flow := Omitted;
      ACBranch.reactive_power_flow := Omitted;
      ACBranch.angle_limits := Omitted
    |}
  |}.

End Line.

(** ** [class Transformer2W(ACBranch)] *)

Module Transformer2W.

Record fields (F : Type -> Type) : Type := { base : ACBranch.fields F }.

Definition kwargs : Type := fields kwarg.
Definition t : Type := fields instance.

Definition new (a : kwargs) : Validation t :=
  Valid (@Build_fields instance) <*> ACBranch.new (base a).

Definition model_dump (exclude_none : bool) (self : t) : dict :=
  ACBranch.model_dump exclude_none (base self).

Definition example : Validation t :=
  new {|
    base := {|
      ACBranch.base :=
        {| Branch.base := {| Device.name := Passed "Example2WTransformer" |} |};
      ACBranch.from_bus := Passed ACBus_example;
      ACBranch.to_bus := Passed ACBus_example;
      ACBranch.r := Omitted;
      ACBranch.x := Omitted;
      ACBranch.primary_shunt := Omitted;
      ACBranch.rating := Passed (Some (ActivePower (Fin 100) "MW"));
      ACBranch.active_power_flow := Omitted;
      ACBranch.reactive_power_flow := Omitted;
      ACBranch.angle_limits := Omitted
    |}
  |}.

End Transformer2W.

(** ** [class DCBranch(Branch)] *)

Module DCBranch.

Record fields (F : Type -> Type) : Type := {
  base : Branch.fields F;
  from_bus : F Bus;
  to_bus : F Bus;
  active_power_flow : F (option Quantity);
  active_power_limits_from : F (option MinMax.t);
  active_power_limits_to : F (option MinMax.t);
  reactive_power_limits_from : F (option MinMax.t);
  reactive_power_limits_to : F (option MinMax.t)
}.

Definition kwargs : Type := fields kwarg.
Definition t : Type := fields instance.

Definition new (a : kwargs) : Validation t :=
  Valid (@Build_fields instance)
    <*> Branch.new (base a)
    <*> required (instance_of Bus_cls) "from_bus" (from_bus a)
    <*> required (instance_of Bus_cls) "to_bus" (to_bus a)
    <*> with_default (nullable ge_0) None "active_power_flow"
          (active_power_flow a)
    <*> with_default (nullable any) None "active_power_limits_from"
          (active_power_limits_from a)
    <*> with_default (nullable any) None "active_power_limits_to"
          (active_power_limits_to a)
    <*> with_default (nullable any) None "reactive_power_limits_from"
          (reactive_power_limits_from a)
    <*> with_default (nullable any) None "reactive_power_limits_to"
          (reactive_power_limits_to a).

Definition serialize_active_power_limits_from (self : t)
  (min_max : option MinMax.t) : pyobject :=
  match min_max with
  | Some m => PyDict [ ("min", PyFloat (MinMax.min m));
                       ("max", PyFloat (MinMax.max m)) ]
  | None => PyNone
  end.

Definition serialize_active_power_limits_to (self : t)
  (min_max : option MinMax.t) : pyobject :=
  match min_max with
  | Some m => PyDict [ ("min", PyFloat (MinMax.min m));
                       ("max", PyFloat (MinMax.max m)) ]
  | None => PyNone
  end.

Definition serialize_reactive_power_limits_from (self : t)
  (min_max : option MinMax.t) : pyobject :=
  match min_max with
  | Some m => PyDict [ ("min", PyFloat (MinMax.min m));
                       ("max", PyFloat (MinMax.max m)) ]
  | None => PyNone
  end.

Definition serialize_reactive_power_limits_to (self : t)
  (min_max : option MinMax.t) : pyobject :=
  match min_max with
  | Some m => PyDict [ ("min", PyFloat (MinMax.min m));
                       ("max", PyFloat (MinMax.max m)) ]
  | None => PyNone
  end.

Definition model_dump (exclude_none : bool) (self : t) : dict :=
  Branch.model_dump (base self)
    ++ [ ("from_bus", dump_bus exclude_none (from_bus self)) ]
    ++ [ ("to_bus", dump_bus exclude_none (to_bus self)) ]
    ++ entry exclude_none "active_power_flow" (active_power_flow self)
         (dump_quantity (active_power_flow self))
    ++ entry exclude_none "active_power_limits_from"
         (active_power_limits_from self)
         (serialize_active_power_limits_from self
            (active_power_limits_from self))
    ++ entry exclude_none "active_power_limits_to"
         (active_power_limits_to self)
         (serialize_active_power_limits_to self (active_power_limits_to self))
    ++ entry exclude_none "reactive_power_limits_from"
         (reactive_power_limits_from self)
         (serialize_reactive_power_limits_from self
            (reactive_power_limits_from self))
    ++ entry exclude_none "reactive_power_limits_to"
         (reactive_power_limits_to self)
         (serialize_reactive_power_limits_to self
            (reactive_power_limits_to self)).

End DCBranch.

(** ** [class AreaInterchange(Branch)] *)

Module AreaInterchange.

Record fields (F : Type -> Type) : Type := {
  base : Branch.fields F;
  max_power_flow : F Quantity;
  min_power_flow : F Quantity;
  from_area : F (option Area);
  to_area : F (option Area)
}.

Definition kwargs : Type := fields kwarg.
Definition t : Type := fields instance.

Definition new (a : kwargs) : Validation t :=
  Valid (@Build_fields instance)
    <*> Branch.new (base a)
    <*> required ge_0 "max_power_flow" (max_power_flow a)
    <*> required le_0 "min_power_flow" (min_power_flow a)
    <*> with_default (nullable any) None "from_area" (from_area a)
    <*> with_default (nullable any) None "to_area" (to_area a).

Definition example : Validation t :=
  new {|
    base := {| Branch.base :=
                 {| Device.name := Passed "ExampleAreaInterchange" |} |};
    max_power_flow := Passed (ActivePower (Fin 100) "MW");
    min_power_flow := Passed (ActivePower (Fin (-100)) "MW");
    from_area := Passed (Some Area_example);
    to_area := Passed (Some Area_example)
  |}.

End AreaInterchange.

(** ** [class TModelHVDCLine(DCBranch)] *)

Module TModelHVDCLine.

Record fields (F : Type -> Type) : Type := {
  base : DCBranch.fields F;
  rating_up : F (option pyfloat);
  rating_down : F (option pyfloat);
  losses : F pyfloat;
  resistance : F (option pyfloat);
  inductance : F (option pyfloat);
  capacitance : F (option pyfloat)
}.

Definition kwargs : Type := fields kwarg.
Definition t : Type := fields instance.

Definition new (a : kwargs) : Validation t :=
  Valid (@Build_fields instance)
    <*> DCBranch.new (base a)
    <*> with_default (nullable NonNegativeFloat) None "rating_up"
          (rating_up a)
    <*> with_default (nullable NonPositiveFloat) None "rating_down"
          (rating_down a)
    <*> with_default NonNegativeFloat zero "losses" (losses a)
    <*> with_default (nullable NonNegativeFloat) (Some zero) "resistance"
          (resistance a)
    <*> with_default (nullable NonNegativeFloat) (Some zero) "inductance"
          (inductance a)
    <*> with_default (nullable NonNegativeFloat) (Some zero) "capacitance"
          (capacitance a).

Definition model_dump (exclude_none : bool) (self : t) : dict :=
  DCBranch.model_dump exclude_none (base self)
    ++ entry exclude_none "rating_up" (rating_up self)
         (dump_float (rating_up self))
    ++ entry exclude_none "rating_down" (rating_down self)
         (dump_float (rating_down self))
    ++ [ ("losses", PyFloat (losses self)) ]
    ++ entry exclude_none "resistance" (resistance self)
         (dump_float (resistance self))
    ++ entry exclude_none "inductance" (inductance self)
         (dump_float (inductance self))
    ++ entry exclude_none "capacitance" (capacitance self)
         (dump_float (capacitance self)).

Definition example : Validation t :=
  new {|
    base := {|
      DCBranch.base :=
        {| Branch.base := {| Device.name := Passed "ExampleDCLine" |} |};
      DCBranch.from_bus := Passed DCBus_example;
      DCBranch.to_bus := Passed DCBus_example;
      DCBranch.active_power_flow := Omitted;
      DCBranch.active_power_limits_from := Omitted;
      DCBranch.active_power_limits_to := Omitted;
      DCBranch.reactive_power_limits_from := Omitted;
      DCBranch.reactive_power_limits_to := Omitted
    |};
    rating_up := Passed (Some (Fin 100));
    rating_down := Passed (Some (Fin 80));
    losses := Omitted;
    resistance := Omitted;
    inductance := Omitted;
    capacitance := Omitted
  |}.

End TModelHVDCLine.

(** ** The parser registry ([r2x/parser/__init__.py]) *)

(** The three parser classes the module imports; their code is in other
    modules, so a class stands for itself here. *)
Inductive ParserClass : Type := PlexosParser | SiennaParser | ReEDSParser.

(** [parser_list]: a dict literal, kept in the order it is written. *)
Definition parser_list : list (string * ParserClass) :=
  [ ("plexos", PlexosParser);
    ("reeds-US", ReEDSParser);
    ("sienna", SiennaParser) ].

(** [parser_list.get(name)]. *)
Fixpoint lookup (name : string) (d : list (string * ParserClass))
  : option ParserClass :=
  match d with
  | [] => None
  | (k, v) :: d' => if String.eqb name k then Some v else lookup name d'
  end.

(** * Vocabulary of the statements *)

(** [reports v e]: [v] is a failure and [e] is one of its entries. *)
Definition reports {A : Type} (v : Validation A) (e : ErrorDetails) : Prop :=
  exists errs, v = Invalid errs /\ In e errs.

(** The two-key structure a range serializes to. *)
Definition range_dict (lo hi : pyfloat) : pyobject :=
  PyDict [ ("min", PyFloat lo); ("max", PyFloat hi) ].

(** [new] constructs a class that extends the class [new0] constructs: the
    inherited fields are validated by [new0], so an instance holds a valid
    instance of the base class and a failure of the base is a failure. *)
Definition extends {K T K0 T0 : Type} (new : K -> Validation T)
  (new0 : K0 -> Validation T0) (kw : K -> K0) (inst : T -> T0) : Prop :=
  (forall a b, new a = Valid b -> new0 (kw a) = Valid (inst b)) /\
  (forall a e, reports (new0 (kw a)) e -> reports (new a) e).

Definition ACBranch_without_from_bus : ACBranch.kwargs :=
  {| ACBranch.base :=
       {| Branch.base := {| Device.name := Passed "L1" |} |};
     ACBranch.from_bus := Omitted;
     ACBranch.to_bus := Passed ACBus_example;
     ACBranch.r := Omitted;
     ACBranch.x := Omitted;
     ACBranch.primary_shunt := Omitted;
     ACBranch.rating := Omitted;
     ACBranch.active_power_flow := Omitted;
     ACBranch.reactive_power_flow := Omitted;
     ACBranch.angle_limits := Omitted |}.

(** An optional quantity is not negative, resp. not positive, if present. *)
Definition non_negative (o : option Quantity) : Prop :=
  forall q, o = Some q -> float_le zero (magnitude q) = true.

Definition non_positive (o : option Quantity) : Prop :=
  forall q, o = Some q -> float_le (magnitude q) zero = true.

(** The keyword argument passes a quantity below zero. *)
Definition negative (k : kwarg (option Quantity)) : Prop :=
  exists q, k = Passed (Some q) /\ float_lt (magnitude q) zero = true.

(** Every instance the constructor [new] returns has [field] not negative. *)
Definition keeps_non_negative {K T : Type} (new : K -> Validation T)
  (field : T -> option Quantity) : Prop :=
  forall a b, new a = Valid b -> non_negative (field b).

(** The constructor [new] fails with [SignConstraintError] for the field
    named [l] when the keyword argument [field] is negative. *)
Definition rejects_negative {K T : Type} (new : K -> Validation T)
  (field : K -> kwarg (option Quantity)) (l : string) : Prop :=
  forall a, negative (field a) -> fails_with (new a) l SignConstraintError.

(** The three flows of an AC branch, seen through a class that extends it. *)
Definition AC_flows_checked {K T : Type} (new : K -> Validation T)
  (kw : K -> ACBranch.kwargs) (inst : T -> ACBranch.t) : Prop :=
  keeps_non_negative new (fun b => ACBranch.rating (inst b)) /\
  keeps_non_negative new (fun b => ACBranch.active_power_flow (inst b)) /\
  keeps_non_negative new (fun b => ACBranch.reactive_power_flow (inst b)) /\
  rejects_negative new (fun a => ACBranch.rating (kw a)) "rating" /\
  rejects_negative new (fun a => ACBranch.active_power_flow (kw a))
    "active_power_flow" /\
  rejects_negative new (fun a => ACBranch.reactive_power_flow (kw a))
    "reactive_power_flow".

(** The flow of a DC branch, seen through a class that extends it. *)
Definition DC_flow_checked {K T : Type} (new : K -> Validation T)
  (kw : K -> DCBranch.kwargs) (inst : T -> DCBranch.t) : Prop :=
  keeps_non_negative new (fun b => DCBranch.active_power_flow (inst b)) /\
  rejects_negative new (fun a => DCBranch.active_power_flow (kw a))
    "active_power_flow".

(** An instance of [ACBranch] with the given [rating], for use as a
    concrete input. *)
Definition ACBranch_rated (rating : kwarg (option Quantity))
  : ACBranch.kwargs :=
  {| ACBranch.base :=
       {| Branch.base := {| Device.name := Passed "L1" |} |};
     ACBranch.from_bus := Passed ACBus_example;
     ACBranch.to_bus := Passed ACBus_example;
     ACBranch.r := Omitted;
     ACBranch.x := Omitted;
     ACBranch.primary_shunt := Omitted;
     ACBranch.rating := rating;
     ACBranch.active_power_flow := Omitted;
     ACBranch.reactive_power_flow := Omitted;
     ACBranch.angle_limits := Omitted |}.

(** A monitored line with the given ratings, for use as a concrete input. *)
Definition MonitoredLine_rated (up down : kwarg (option Quantity))
  : MonitoredLine.kwargs :=
  {| MonitoredLine.base := ACBranch_rated Omitted;
     MonitoredLine.rating_up := up;
     MonitoredLine.rating_down := down;
     MonitoredLine.losses := Omitted |}.

(** An area interchange with the given limits, for use as a concrete
    input. *)
Definition AreaInterchange_limited (hi lo : kwarg Quantity)
  : AreaInterchange.kwargs :=
  {| AreaInterchange.base :=
       {| Branch.base := {| Device.name := Passed "I1" |} |};
     AreaInterchange.max_power_flow := hi;
     AreaInterchange.min_power_flow := lo;
     AreaInterchange.from_area := Omitted;
     AreaInterchange.to_area := Omitted |}.

(** The keyword arguments, or the instance, with one field replaced. *)
Definition with_rating_up {F : Type -> Type} (v : F (option pyfloat))
  (s : TModelHVDCLine.fields F) : TModelHVDCLine.fields F :=
  {| TModelHVDCLine.base := TModelHVDCLine.base s;
     TModelHVDCLine.rating_up := v;
     TModelHVDCLine.rating_down := TModelHVDCLine.rating_down s;
     TModelHVDCLine.losses := TModelHVDCLine.losses s;
     TModelHVDCLine.resistance := TModelHVDCLine.resistance s;
     TModelHVDCLine.inductance := TModelHVDCLine.inductance s;
     TModelHVDCLine.capacitance := TModelHVDCLine.capacitance s |}.

Definition with_rating_down {F : Type -> Type} (v : F (option pyfloat))
  (s : TModelHVDCLine.fields F) : TModelHVDCLine.fields F :=
  {| TModelHVDCLine.base := TModelHVDCLine.base s;
     TModelHVDCLine.rating_up := TModelHVDCLine.rating_up s;
     TModelHVDCLine.rating_down := v;
     TModelHVDCLine.losses := TModelHVDCLine.losses s;
     TModelHVDCLine.resistance := TModelHVDCLine.resistance s;
     TModelHVDCLine.inductance := TModelHVDCLine.inductance s;
     TModelHVDCLine.capacitance := TModelHVDCLine.capacitance s |}.

Definition with_resistance {F : Type -> Type} (v : F (option pyfloat))
  (s : TModelHVDCLine.fields F) : TModelHVDCLine.fields F :=
  {| TModelHVDCLine.base := TModelHVDCLine.base s;
     TModelHVDCLine.rating_up := TModelHVDCLine.rating_up s;
     TModelHVDCLine.rating_down := TModelHVDCLine.rating_down s;
     TModelHVDCLine.losses := TModelHVDCLine.losses s;
     TModelHVDCLine.resistance := v;
     TModelHVDCLine.inductance := TModelHVDCLine.inductance s;
     TModelHVDCLine.capacitance := TModelHVDCLine.capacitance s |}.

Definition with_inductance {F : Type -> Type} (v : F (option pyfloat))
  (s : TModelHVDCLine.fields F) : TModelHVDCLine.fields F :=
  {| TModelHVDCLine.base := TModelHVDCLine.base s;
     TModelHVDCLine.rating_up := TModelHVDCLine.rating_up s;
     TModelHVDCLine.rating_down := TModelHVDCLine.rating_down s;
     TModelHVDCLine.losses := TModelHVDCLine.losses s;
     TModelHVDCLine.resistance := TModelHVDCLine.resistance s;
     TModelHVDCLine.inductance := v;
     TModelHVDCLine.capacitance := TModelHVDCLine.capacitance s |}.

Definition with_capacitance {F : Type -> Type} (v : F (option pyfloat))
  (s : TModelHVDCLine.fields F) : TModelHVDCLine.fields F :=
  {| TModelHVDCLine.base := TModelHVDCLine.base s;
     TModelHVDCLine.rating_up := TModelHVDCLine.rating_up s;
     TModelHVDCLine.rating_down := TModelHVDCLine.rating_down s;
     TModelHVDCLine.losses := TModelHVDCLine.losses s;
     TModelHVDCLine.resistance := TModelHVDCLine.resistance s;
     TModelHVDCLine.inductance := TModelHVDCLine.inductance s;
     TModelHVDCLine.capacitance := v |}.

(** Passing [None] for the field that [set] replaces, in a call that
    otherwise validates, validates too, and the field then holds [None]. *)
Definition accepts_None
  (set : forall F : Type -> Type,
      F (option pyfloat) -> TModelHVDCLine.fields F -> TModelHVDCLine.fields F)
  : Prop :=
  forall a h,
    TModelHVDCLine.new a = Valid h ->
    TModelHVDCLine.new (set kwarg (Passed None) a)
    = Valid (set instance None h).

(** The default of the field [get] reads applies when, and only when, the
    keyword argument is omitted: an omitted field holds 0, a field passed
    [None] holds [None], a field passed a number holds that number. *)
Definition defaults_to_zero_when_omitted
  (get : forall F : Type -> Type, TModelHVDCLine.fields F -> F (option pyfloat))
  : Prop :=
  forall a h,
    TModelHVDCLine.new a = Valid h ->
    match get kwarg a with
    | Omitted => get instance h = Some zero
    | Passed None => get instance h = None
    | Passed (Some v) => get instance h = Some v
    end.

(** The line of [example] with [rating_down] in the admissible range and
    [None] passed for the five optional fields. *)
Definition TModelHVDCLine_all_None : TModelHVDCLine.kwargs :=
  {| TModelHVDCLine.base := {|
       DCBranch.base :=
         {| Branch.base := {| Device.name := Passed "ExampleDCLine" |} |};
       DCBranch.from_bus := Passed DCBus_example;
       DCBranch.to_bus := Passed DCBus_example;
       DCBranch.active_power_flow := Omitted;
       DCBranch.active_power_limits_from := Omitted;
       DCBranch.active_power_limits_to := Omitted;
       DCBranch.reactive_power_limits_from := Omitted;
       DCBranch.reactive_power_limits_to := Omitted |};
     TModelHVDCLine.rating_up := Passed None;
     TModelHVDCLine.rating_down := Passed None;
     TModelHVDCLine.losses := Omitted;
     TModelHVDCLine.resistance := Passed None;
     TModelHVDCLine.inductance := Passed None;
     TModelHVDCLine.capacitance := Passed None |}.

(** What the dump holds under the key of a range field: the two-key
    structure of a range that is present; for an absent range [None], or no
    entry at all when the dump is asked to exclude [None] values. *)
Definition dumped (exclude_none : bool) (o : option MinMax.t)
  : option pyobject :=
  match o with
  | Some m => Some (range_dict (MinMax.min m) (MinMax.max m))
  | None => if exclude_none then None else Some PyNone
  end.

(** The instance holds [v] for a field called with the keyword argument
    [k]: the value passed, or the default of the field when omitted. *)
Definition stored {A : Type} (default : A) (k : kwarg A) (v : A) : Prop :=
  v = match k with Omitted => default | Passed x => x end.

(** An optional float is not negative, resp. not positive, if present. *)
Definition float_non_negative (o : option pyfloat) : Prop :=
  forall v, o = Some v -> float_le zero v = true.

Definition float_non_positive (o : option pyfloat) : Prop :=
  forall v, o = Some v -> float_le v zero = true.

(** The errors a field contributes to the [ValidationError]. *)
Definition errors_of {A : Type} (v : Validation A) : list ErrorDetails :=
  match v with Valid _ => [] | Invalid e => e end.

(** The names of the fields of each class, inherited ones first. *)
Definition Branch_model_fields : list string := [ "name" ].

Definition ACBranch_model_fields : list string :=
  Branch_model_fields
    ++ [ "from_bus"; "to_bus"; "r"; "x"; "primary_shunt"; "rating";
         "active_power_flow"; "reactive_power_flow"; "angle_limits" ].

Definition MonitoredLine_model_fields : list string :=
  ACBranch_model_fields ++ [ "rating_up"; "rating_down"; "losses" ].

Definition DCBranch_model_fields : list string :=
  Branch_model_fields
    ++ [ "from_bus"; "to_bus"; "active_power_flow";
         "active_power_limits_from"; "active_power_limits_to";
         "reactive_power_limits_from"; "reactive_power_limits_to" ].

Definition AreaInterchange_model_fields : list string :=
  Branch_model_fields
    ++ [ "max_power_flow"; "min_power_flow"; "from_area"; "to_area" ].

Definition TModelHVDCLine_model_fields : list string :=
  DCBranch_model_fields
    ++ [ "rating_up"; "rating_down"; "losses"; "resistance"; "inductance";
         "capacitance" ].

(** A failure is well formed over the field names [names]: it lists at
    least one error, and every error is located at one of the fields. *)
Definition errors_located {A : Type} (names : list string)
  (v : Validation A) : Prop :=
  forall errs,
    v = Invalid errs ->
    errs <> [] /\ Forall (fun e => In (loc e) names) errs.



(** A check reports its failure at the field it is declared for. *)
Definition check_located {A : Type} (check : string -> A -> Validation A)
  : Prop :=
  forall names l a, In l names -> errors_located names (check l a).

(** What a field holds for the keyword argument [k]: the value passed, or
    the default when the argument is omitted. *)
Definition held {A : Type} (default : A) (k : kwarg A) : A :=
  match k with Omitted => default | Passed x => x end.

(** The keyword argument is left out, or is [None]. *)
Definition None_or_omitted {A : Type} (k : kwarg (option A)) : Prop :=
  k = Omitted \/ k = Passed None.

(** Leaving out the field that [set] replaces, in a call that otherwise
    validates, validates too, and the field then holds [default]. *)
Definition accepts_omitted
  (set : forall F : Type -> Type,
      F (option pyfloat) -> TModelHVDCLine.fields F -> TModelHVDCLine.fields F)
  (default : option pyfloat) : Prop :=
  forall a h,
    TModelHVDCLine.new a = Valid h ->
    TModelHVDCLine.new (set kwarg Omitted a)
    = Valid (set instance default h).

(** The call of [example] with [rating_down] on its admissible side, and
    [None] passed for [resistance] alone. *)
Definition TModelHVDCLine_resistance_None : TModelHVDCLine.kwargs :=
  {| TModelHVDCLine.base := {|
       DCBranch.base :=
         {| Branch.base := {| Device.name := Passed "ExampleDCLine" |} |};
       DCBranch.from_bus := Passed DCBus_example;
       DCBranch.to_bus := Passed DCBus_example;
       DCBranch.active_power_flow := Omitted;
       DCBranch.active_power_limits_from := Omitted;
       DCBranch.active_power_limits_to := Omitted;
       DCBranch.reactive_power_limits_from := Omitted;
       DCBranch.reactive_power_limits_to := Omitted |};
     TModelHVDCLine.rating_up := Passed (Some (Fin 100));
     TModelHVDCLine.rating_down := Passed (Some (Fin (-80)));
     TModelHVDCLine.losses := Omitted;
     TModelHVDCLine.resistance := Passed None;
     TModelHVDCLine.inductance := Omitted;
     TModelHVDCLine.capacitance := Omitted |}.

(** The error a field reports when its value fails the test [ok]. *)
Definition violation (ok : bool) (l : string) (t : ErrorType)
  : list ErrorDetails :=
  if ok then [] else [ {| loc := l; type := t |} ].

(** The errors of an optional field, resp. of a field that takes no
    [None], with the test [ok]: none unless a value is passed that fails
    the test. *)
Definition optional_errors {A : Type} (ok : A -> bool) (l : string)
  (t : ErrorType) (k : kwarg (option A)) : list ErrorDetails :=
  match k with
  | Passed (Some a) => violation (ok a) l t
  | _ => []
  end.

Definition passed_errors {A : Type} (ok : A -> bool) (l : string)
  (t : ErrorType) (k : kwarg A) : list ErrorDetails :=
  match k with
  | Passed a => violation (ok a) l t
  | Omitted => []
  end.

(** The errors of the fields [MonitoredLine] and [TModelHVDCLine] declare
    themselves, in the order of the fields. *)
Definition MonitoredLine_own_errors (a : MonitoredLine.kwargs)
  : list ErrorDetails :=
  optional_errors (fun q => float_le zero (magnitude q))
    "rating_up" greater_than_equal (MonitoredLine.rating_up a)
  ++ optional_errors (fun q => float_le (magnitude q) zero)
       "rating_down" less_than_equal (MonitoredLine.rating_down a).

Definition TModelHVDCLine_own_errors (a : TModelHVDCLine.kwargs)
  : list ErrorDetails :=
  optional_errors (fun v => float_le zero v)
    "rating_up" greater_than_equal (TModelHVDCLine.rating_up a)
  ++ optional_errors (fun v => float_le v zero)
       "rating_down" less_than_equal (TModelHVDCLine.rating_down a)
  ++ passed_errors (fun v => float_le zero v)
       "losses" greater_than_equal (TModelHVDCLine.losses a)
  ++ optional_errors (fun v => float_le zero v)
       "resistance" greater_than_equal (TModelHVDCLine.resistance a)
  ++ optional_errors (fun v => float_le zero v)
       "inductance" greater_than_equal (TModelHVDCLine.inductance a)
  ++ optional_errors (fun v => float_le zero v)
       "capacitance" greater_than_equal (TModelHVDCLine.capacitance a).

(** A monitored line without [from_bus] and with [rating_down=50]. *)
Definition MonitoredLine_two_errors : MonitoredLine.kwargs :=
  {| MonitoredLine.base := ACBranch_without_from_bus;
     MonitoredLine.rating_up := Omitted;
     MonitoredLine.rating_down := Passed (Some (ActivePower (Fin 50) "MW"));
     MonitoredLine.losses := Omitted |}.


(** * Properties *)

(** ** Comparisons *)

Lemma float_lt_not_ge (a b : pyfloat) :
  float_lt a b = true -> float_le b a = false.
Proof.
  destruct a as [p| | |], b as [q| | |]; simpl; try congruence.
  intros H. apply negb_true_iff in H. exact H.
Qed.

(** ** Validation results *)

Lemma ap_Valid_inv {A B : Type} (f : Validation (A -> B)) (x : Validation A)
  (b : B) :
  f <*> x = Valid b -> exists g a, f = Valid g /\ x = Valid a /\ b = g a.
Proof.
  destruct f as [g|e1], x as [a|e2]; simpl; intros H; try discriminate.
  injection H as <-. exists g, a. auto.
Qed.

Lemma reports_ap_l {A B : Type} (f : Validation (A -> B)) (x : Validation A)
  (e : ErrorDetails) :
  reports f e -> reports (f <*> x) e.
Proof.
  intros [errs [-> Hin]]. destruct x as [a|e2]; simpl.
  - exists errs. auto.
  - exists (errs ++ e2). split; [reflexivity | apply in_or_app; auto].
Qed.

Lemma reports_ap_r {A B : Type} (f : Validation (A -> B)) (x : Validation A)
  (e : ErrorDetails) :
  reports x e -> reports (f <*> x) e.
Proof.
  intros [errs [-> Hin]]. destruct f as [g|e1]; simpl.
  - exists errs. auto.
  - exists (e1 ++ errs). split; [reflexivity | apply in_or_app; auto].
Qed.

Lemma reports_fmap {A B : Type} (g : A -> B) (x : Validation A)
  (e : ErrorDetails) :
  reports x e -> reports (fmap g x) e.
Proof. intros [errs [-> Hin]]. exists errs. auto. Qed.

Lemma reports_not_Valid {A : Type} (v : Validation A) (e : ErrorDetails) (a : A) :
  reports v e -> v <> Valid a.
Proof. intros [errs [-> _]]. discriminate. Qed.

Lemma fails_with_reports {A : Type} (v : Validation A) (l : string)
  (t : ErrorType) (c : ErrorClass) :
  reports v {| loc := l; type := t |} -> taxonomy t = Some c ->
  fails_with v l c.
Proof. intros [errs [-> Hin]] Ht. exists errs, t. auto. Qed.

(** ** Field checks *)

Lemma ge_0_Valid_inv (l : string) (v w : Quantity) :
  ge_0 l v = Valid w -> w = v /\ float_le zero (magnitude v) = true.
Proof.
  unfold ge_0. destruct (float_le zero (magnitude v)); [|discriminate].
  intros H. injection H as <-. auto.
Qed.

Lemma le_0_Valid_inv (l : string) (v w : Quantity) :
  le_0 l v = Valid w -> w = v /\ float_le (magnitude v) zero = true.
Proof.
  unfold le_0. destruct (float_le (magnitude v) zero); [|discriminate].
  intros H. injection H as <-. auto.
Qed.

Lemma NonNegativeFloat_Valid_inv (l : string) (v w : pyfloat) :
  NonNegativeFloat l v = Valid w -> w = v /\ float_le zero v = true.
Proof.
  unfold NonNegativeFloat. destruct (float_le zero v); [|discriminate].
  intros H. injection H as <-. auto.
Qed.

Lemma NonPositiveFloat_Valid_inv (l : string) (v w : pyfloat) :
  NonPositiveFloat l v = Valid w -> w = v /\ float_le v zero = true.
Proof.
  unfold NonPositiveFloat. destruct (float_le v zero); [|discriminate].
  intros H. injection H as <-. auto.
Qed.

Lemma ge_0_reports (l : string) (v : Quantity) :
  float_le zero (magnitude v) = false ->
  reports (ge_0 l v) {| loc := l; type := greater_than_equal |}.
Proof.
  intros H. unfold ge_0. rewrite H. eexists. split; [reflexivity|]. left.
  reflexivity.
Qed.

Lemma le_0_reports (l : string) (v : Quantity) :
  float_le (magnitude v) zero = false ->
  reports (le_0 l v) {| loc := l; type := less_than_equal |}.
Proof.
  intros H. unfold le_0. rewrite H. eexists. split; [reflexivity|]. left.
  reflexivity.
Qed.

Lemma required_Omitted_reports {A : Type}
  (check : string -> A -> Validation A) (l : string) :
  reports (required check l Omitted) {| loc := l; type := missing |}.
Proof. eexists. split; [reflexivity|]. left. reflexivity. Qed.

(** What an optional, checked field holds once it validated. *)
Lemma optional_Valid_inv {A : Type} (check : string -> A -> Validation A)
  (P : A -> Prop) (default : option A) (l : string)
  (k : kwarg (option A)) (o : option A) :
  (forall a b, check l a = Valid b -> b = a /\ P a) ->
  with_default (nullable check) default l k = Valid o ->
  match k with
  | Omitted => o = default
  | Passed None => o = None
  | Passed (Some a) => o = Some a /\ P a
  end.
Proof.
  intros Hcheck. destruct k as [|[a|]]; simpl.
  - congruence.
  - destruct (check l a) as [b|e] eqn:E; simpl; [|discriminate].
    intros H. injection H as <-. destruct (Hcheck _ _ E) as [-> HP]. auto.
  - congruence.
Qed.

(** Splits [f <*> x1 <*> ... <*> xn = Valid b] into the validity of every
    field and the instance they build. *)
Ltac invert_ap H :=
  lazymatch type of H with
  | _ <*> _ = Valid _ =>
      let g := fresh "g" in
      let v := fresh "v" in
      let Hf := fresh "Hf" in
      let Hx := fresh "Hx" in
      let Hb := fresh "Hb" in
      apply ap_Valid_inv in H; destruct H as (g & v & Hf & Hx & Hb);
      invert_ap Hf; subst
  | Valid _ = Valid _ => injection H as H; subst
  end.

(** ** The range type *)

(** C3: every constructed [MinMax] has [min <= max]; a construction with
    [min > max], and [MinMax(min=10, max=5)] in particular, fails with
    [RangeViolationError]; [MinMax(min=5, max=10)] succeeds and serializes
    to the structure with [min] 5 and [max] 10. *)
Theorem MinMax_min_le_max :
  (forall lo hi m,
      MinMax.new lo hi = Valid m ->
      float_le (MinMax.min m) (MinMax.max m) = true) /\
  (forall lo hi,
      float_lt hi lo = true ->
      fails_with (MinMax.new lo hi) "MinMax" RangeViolationError) /\
  fails_with (MinMax.new (Fin 10) (Fin 5)) "MinMax" RangeViolationError /\
  (exists m,
      MinMax.new (Fin 5) (Fin 10) = Valid m /\
      forall self,
        ACBranch.serialize_angle_limits self (Some m)
        = range_dict (Fin 5) (Fin 10)).
Proof.
  assert (Hgt : forall lo hi, float_lt hi lo = true ->
            fails_with (MinMax.new lo hi) "MinMax" RangeViolationError).
  { intros lo hi Hlt. unfold MinMax.new.
    rewrite (float_lt_not_ge _ _ Hlt).
    exists [ {| loc := "MinMax"; type := range_violation |} ], range_violation.
    repeat split. left. reflexivity. }
  split; [|split; [exact Hgt|split]].
  - intros lo hi m. unfold MinMax.new.
    destruct (float_le lo hi) eqn:E; [|discriminate].
    intros H. injection H as <-. exact E.
  - apply Hgt. reflexivity.
  - eexists. split; [reflexivity|]. intros self. reflexivity.
Qed.

Lemma MinMax_min_le_max_witness :
  float_le (Fin 5) (Fin 10) = true /\
  fails_with (MinMax.new (Fin 7) (Fin 2)) "MinMax" RangeViolationError.
Proof.
  split.
  - exact (proj1 MinMax_min_le_max (Fin 5) (Fin 10)
             {| MinMax.min := Fin 5; MinMax.max := Fin 10 |} eq_refl).
  - apply (proj1 (proj2 MinMax_min_le_max) (Fin 7) (Fin 2)). reflexivity.
Defined.

(** ** Field serializers *)

(** C9: the four range serializers of [DCBranch] return the same result on
    every input, [None] included, and that result is the one of
    [ACBranch.serialize_angle_limits]. *)
Theorem serializers_agree (self : DCBranch.t) (self' : ACBranch.t)
  (min_max : option MinMax.t) :
  DCBranch.serialize_active_power_limits_from self min_max
  = ACBranch.serialize_angle_limits self' min_max /\
  DCBranch.serialize_active_power_limits_to self min_max
  = ACBranch.serialize_angle_limits self' min_max /\
  DCBranch.serialize_reactive_power_limits_from self min_max
  = ACBranch.serialize_angle_limits self' min_max /\
  DCBranch.serialize_reactive_power_limits_to self min_max
  = ACBranch.serialize_angle_limits self' min_max.
Proof. destruct min_max as [m|]; repeat split; reflexivity. Qed.

(** ** Example factories *)

(** The examples of five of the six concrete classes validate. *)
Lemma examples_validate :
  (exists b, Branch.example = Valid b) /\
  (exists m, MonitoredLine.example = Valid m) /\
  (exists l, Line.example = Valid l) /\
  (exists w, Transformer2W.example = Valid w) /\
  (exists i, AreaInterchange.example = Valid i).
Proof. repeat split; eexists; vm_compute; reflexivity. Qed.

(** C1 (as the code behaves): [TModelHVDCLine.example()] passes
    [rating_down=80] to a field declared [NonPositiveFloat], so its
    construction is rejected with a [less_than_equal] entry for
    [rating_down] and returns no instance. *)
Theorem TModelHVDCLine_example_rejected :
  TModelHVDCLine.example
  = Invalid [ {| loc := "rating_down"; type := less_than_equal |} ].
Proof. vm_compute. reflexivity. Qed.

(** C8: [MonitoredLine.example()] validates, and the instance holds
    [rating_up] 100 MW, [rating_down] -100 MW, [losses] 10 % and [rating]
    100 MW. *)
Theorem MonitoredLine_example_fields :
  exists m,
    MonitoredLine.example = Valid m /\
    MonitoredLine.rating_up m = Some (ActivePower (Fin 100) "MW") /\
    MonitoredLine.rating_down m = Some (ActivePower (Fin (-100)) "MW") /\
    MonitoredLine.losses m = Some (Percentage (Fin 10) "%") /\
    ACBranch.rating (MonitoredLine.base m)
    = Some (ActivePower (Fin 100) "MW").
Proof. eexists. split; [vm_compute; reflexivity|]. repeat split. Qed.

(** ** Construction failures *)

(** Finds the field of a constructor whose failure [tac] establishes. *)
Ltac report_field tac :=
  first [ apply reports_ap_r; solve [tac]
        | apply reports_ap_l; report_field tac ].

Lemma extends_refl {K T : Type} (new : K -> Validation T) :
  extends new new (fun a => a) (fun b => b).
Proof. split; auto. Qed.

Lemma MonitoredLine_extends :
  extends MonitoredLine.new ACBranch.new
    (@MonitoredLine.base kwarg) (@MonitoredLine.base instance).
Proof.
  split.
  - intros a b H. unfold MonitoredLine.new in H. invert_ap H. assumption.
  - intros a e H. unfold MonitoredLine.new. report_field ltac:(exact H).
Qed.

Lemma Line_extends :
  extends Line.new ACBranch.new (@Line.base kwarg) (@Line.base instance).
Proof.
  split.
  - intros a b H. unfold Line.new in H. invert_ap H. assumption.
  - intros a e H. unfold Line.new. report_field ltac:(exact H).
Qed.

Lemma Transformer2W_extends :
  extends Transformer2W.new ACBranch.new
    (@Transformer2W.base kwarg) (@Transformer2W.base instance).
Proof.
  split.
  - intros a b H. unfold Transformer2W.new in H. invert_ap H. assumption.
  - intros a e H. unfold Transformer2W.new. report_field ltac:(exact H).
Qed.

Lemma TModelHVDCLine_extends :
  extends TModelHVDCLine.new DCBranch.new
    (@TModelHVDCLine.base kwarg) (@TModelHVDCLine.base instance).
Proof.
  split.
  - intros a b H. unfold TModelHVDCLine.new in H. invert_ap H. assumption.
  - intros a e H. unfold TModelHVDCLine.new. report_field ltac:(exact H).
Qed.

(** An optional field that validated holds a value only if the value passed
    the check of the field (or is the default). *)
Lemma optional_Valid_holds {A : Type} (check : string -> A -> Validation A)
  (P : A -> Prop) (default : option A) (l : string)
  (k : kwarg (option A)) (o : option A) :
  (forall a b, check l a = Valid b -> b = a /\ P a) ->
  (forall d, default = Some d -> P d) ->
  with_default (nullable check) default l k = Valid o ->
  forall a, o = Some a -> P a.
Proof.
  intros Hcheck Hdef H a Ha.
  apply (optional_Valid_inv _ P _ _ _ Hcheck) in H.
  destruct k as [|[b|]].
  - subst o. auto.
  - destruct H as [-> HP]. injection Ha as <-. exact HP.
  - congruence.
Qed.

(** An optional field fails on a value that fails the check of the field. *)
Lemma optional_reports {A : Type} (check : string -> A -> Validation A)
  (default : option A) (l : string) (k : kwarg (option A)) (a : A)
  (e : ErrorDetails) :
  k = Passed (Some a) -> reports (check l a) e ->
  reports (with_default (nullable check) default l k) e.
Proof. intros -> H. simpl. apply reports_fmap. exact H. Qed.

(** C7: a call of [ACBranch] that leaves [from_bus] out fails with
    [MissingFieldError] for that field, and it returns no instance. *)
Theorem ACBranch_from_bus_required (a : ACBranch.kwargs) :
  ACBranch.from_bus a = Omitted ->
  fails_with (ACBranch.new a) "from_bus" MissingFieldError /\
  forall b, ACBranch.new a <> Valid b.
Proof.
  intros H.
  assert (R : reports (ACBranch.new a) {| loc := "from_bus"; type := missing |}).
  { unfold ACBranch.new.
    report_field ltac:(rewrite H; apply required_Omitted_reports). }
  split.
  - apply (fails_with_reports R). reflexivity.
  - intros b. eapply reports_not_Valid. exact R.
Qed.

Lemma ACBranch_from_bus_required_witness :
  fails_with (ACBranch.new ACBranch_without_from_bus) "from_bus"
    MissingFieldError.
Proof.
  exact (proj1 (ACBranch_from_bus_required ACBranch_without_from_bus eq_refl)).
Defined.

(** ** Sign constraints *)

Lemma ge_0_optional_holds (default : option Quantity) (l : string)
  (k : kwarg (option Quantity)) (o : option Quantity) :
  default = None ->
  with_default (nullable ge_0) default l k = Valid o -> non_negative o.
Proof.
  intros -> H. unfold non_negative.
  refine (@optional_Valid_holds _ ge_0 (fun q => float_le zero (magnitude q) = true)
            None l k o (ge_0_Valid_inv l) _ H).
  discriminate.
Qed.

Lemma le_0_optional_holds (default : option Quantity) (l : string)
  (k : kwarg (option Quantity)) (o : option Quantity) :
  default = None ->
  with_default (nullable le_0) default l k = Valid o -> non_positive o.
Proof.
  intros -> H. unfold non_positive.
  refine (@optional_Valid_holds _ le_0 (fun q => float_le (magnitude q) zero = true)
            None l k o (le_0_Valid_inv l) _ H).
  discriminate.
Qed.

Lemma ge_0_optional_reports (default : option Quantity) (l : string)
  (k : kwarg (option Quantity)) :
  negative k ->
  reports (with_default (nullable ge_0) default l k)
    {| loc := l; type := greater_than_equal |}.
Proof.
  intros [q [Hk Hq]]. apply (optional_reports _ _ _ Hk).
  apply ge_0_reports. apply float_lt_not_ge. exact Hq.
Qed.

Lemma ACBranch_keeps_non_negative :
  keeps_non_negative ACBranch.new (@ACBranch.rating instance) /\
  keeps_non_negative ACBranch.new (@ACBranch.active_power_flow instance) /\
  keeps_non_negative ACBranch.new (@ACBranch.reactive_power_flow instance).
Proof.
  repeat split; intros a b H; unfold ACBranch.new in H; invert_ap H; simpl;
    eapply ge_0_optional_holds; try eassumption; reflexivity.
Qed.

Lemma ACBranch_rejects_negative (a : ACBranch.kwargs) :
  (negative (ACBranch.rating a) ->
   reports (ACBranch.new a)
     {| loc := "rating"; type := greater_than_equal |}) /\
  (negative (ACBranch.active_power_flow a) ->
   reports (ACBranch.new a)
     {| loc := "active_power_flow"; type := greater_than_equal |}) /\
  (negative (ACBranch.reactive_power_flow a) ->
   reports (ACBranch.new a)
     {| loc := "reactive_power_flow"; type := greater_than_equal |}).
Proof.
  repeat split; intros H; unfold ACBranch.new;
    report_field ltac:(apply ge_0_optional_reports; exact H).
Qed.

Lemma DCBranch_keeps_non_negative :
  keeps_non_negative DCBranch.new (@DCBranch.active_power_flow instance).
Proof.
  intros a b H; unfold DCBranch.new in H; invert_ap H; simpl.
  eapply ge_0_optional_holds; try eassumption; reflexivity.
Qed.

Lemma DCBranch_rejects_negative (a : DCBranch.kwargs) :
  negative (DCBranch.active_power_flow a) ->
  reports (DCBranch.new a)
    {| loc := "active_power_flow"; type := greater_than_equal |}.
Proof.
  intros H; unfold DCBranch.new;
    report_field ltac:(apply ge_0_optional_reports; exact H).
Qed.

Lemma extends_AC_flows_checked {K T : Type} (new : K -> Validation T)
  (kw : K -> ACBranch.kwargs) (inst : T -> ACBranch.t) :
  extends new ACBranch.new kw inst -> AC_flows_checked new kw inst.
Proof.
  intros [Hv Hr].
  destruct ACBranch_keeps_non_negative as (K1 & K2 & K3).
  repeat split.
  - intros a b H. exact (K1 _ _ (Hv _ _ H)).
  - intros a b H. exact (K2 _ _ (Hv _ _ H)).
  - intros a b H. exact (K3 _ _ (Hv _ _ H)).
  - intros a H. eapply fails_with_reports;
      [apply Hr; apply ACBranch_rejects_negative; exact H | reflexivity].
  - intros a H. eapply fails_with_reports;
      [apply Hr; apply ACBranch_rejects_negative; exact H | reflexivity].
  - intros a H. eapply fails_with_reports;
      [apply Hr; apply ACBranch_rejects_negative; exact H | reflexivity].
Qed.

Lemma extends_DC_flow_checked {K T : Type} (new : K -> Validation T)
  (kw : K -> DCBranch.kwargs) (inst : T -> DCBranch.t) :
  extends new DCBranch.new kw inst -> DC_flow_checked new kw inst.
Proof.
  intros [Hv Hr]. split.
  - intros a b H. exact (DCBranch_keeps_non_negative _ (Hv _ _ H)).
  - intros a H. eapply fails_with_reports;
      [apply Hr; apply DCBranch_rejects_negative; exact H | reflexivity].
Qed.

(** C6: on every instance of [ACBranch], [MonitoredLine], [Line] and
    [Transformer2W] the fields [rating], [active_power_flow] and
    [reactive_power_flow], and on every instance of [DCBranch] and
    [TModelHVDCLine] the field [active_power_flow] (the only one of the
    three a DC branch declares), hold a value >= 0 when they hold one; a
    construction that passes a value < 0 for one of them fails, with a
    [SignConstraintError] for that field. *)
Theorem flows_non_negative :
  AC_flows_checked ACBranch.new (fun a => a) (fun b => b) /\
  AC_flows_checked MonitoredLine.new
    (@MonitoredLine.base kwarg) (@MonitoredLine.base instance) /\
  AC_flows_checked Line.new (@Line.base kwarg) (@Line.base instance) /\
  AC_flows_checked Transformer2W.new
    (@Transformer2W.base kwarg) (@Transformer2W.base instance) /\
  DC_flow_checked DCBranch.new (fun a => a) (fun b => b) /\
  DC_flow_checked TModelHVDCLine.new
    (@TModelHVDCLine.base kwarg) (@TModelHVDCLine.base instance).
Proof.
  repeat match goal with |- _ /\ _ => split end.
  - apply extends_AC_flows_checked, extends_refl.
  - apply extends_AC_flows_checked, MonitoredLine_extends.
  - apply extends_AC_flows_checked, Line_extends.
  - apply extends_AC_flows_checked, Transformer2W_extends.
  - apply extends_DC_flow_checked, extends_refl.
  - apply extends_DC_flow_checked, TModelHVDCLine_extends.
Qed.

Lemma flows_non_negative_witness :
  float_le zero (magnitude (ActivePower (Fin 100) "MW")) = true /\
  fails_with
    (ACBranch.new (ACBranch_rated (Passed (Some (ActivePower (Fin (-5)) "MW")))))
    "rating" SignConstraintError.
Proof.
  destruct flows_non_negative as [(K1 & _ & _ & R1 & _) _].
  split.
  - apply (K1 (ACBranch_rated (Passed (Some (ActivePower (Fin 100) "MW"))))
              _ eq_refl (ActivePower (Fin 100) "MW") eq_refl).
  - apply (R1 (ACBranch_rated (Passed (Some (ActivePower (Fin (-5)) "MW"))))).
    exists (ActivePower (Fin (-5)) "MW"). split; reflexivity.
Defined.

(** C4: on every instance of [MonitoredLine] and of [TModelHVDCLine],
    [rating_up] is >= 0 and [rating_down] is <= 0 when the field holds a
    value; a [MonitoredLine] constructed with [rating_down=50] fails with
    [SignConstraintError] for that field. *)
Theorem ratings_signed :
  (forall a m,
      MonitoredLine.new a = Valid m ->
      non_negative (MonitoredLine.rating_up m) /\
      non_positive (MonitoredLine.rating_down m)) /\
  (forall a h,
      TModelHVDCLine.new a = Valid h ->
      (forall v, TModelHVDCLine.rating_up h = Some v ->
                 float_le zero v = true) /\
      (forall v, TModelHVDCLine.rating_down h = Some v ->
                 float_le v zero = true)) /\
  (forall a u,
      MonitoredLine.rating_down a = Passed (Some (ActivePower (Fin 50) u)) ->
      fails_with (MonitoredLine.new a) "rating_down" SignConstraintError).
Proof.
  repeat match goal with |- _ /\ _ => split end.
  - intros a m H. unfold MonitoredLine.new in H. invert_ap H. simpl. split.
    + eapply ge_0_optional_holds; [reflexivity | eassumption].
    + eapply le_0_optional_holds; [reflexivity | eassumption].
  - intros a h H. unfold TModelHVDCLine.new in H. invert_ap H. simpl. split.
    + refine (@optional_Valid_holds _ NonNegativeFloat
                (fun v => float_le zero v = true) None _ _ _
                (NonNegativeFloat_Valid_inv _) _ Hx4).
      discriminate.
    + refine (@optional_Valid_holds _ NonPositiveFloat
                (fun v => float_le v zero = true) None _ _ _
                (NonPositiveFloat_Valid_inv _) _ Hx3).
      discriminate.
  - intros a u H.
    eapply fails_with_reports;
      [unfold MonitoredLine.new;
       report_field ltac:(apply (optional_reports _ _ _ H);
                          apply le_0_reports; reflexivity)
      | reflexivity].
Qed.

Lemma ratings_signed_witness :
  float_le (magnitude (ActivePower (Fin (-100)) "MW")) zero = true /\
  fails_with
    (MonitoredLine.new
       (MonitoredLine_rated Omitted (Passed (Some (ActivePower (Fin 50) "MW")))))
    "rating_down" SignConstraintError.
Proof.
  destruct ratings_signed as (K & _ & R).
  split.
  - exact (proj2 (K (MonitoredLine_rated Omitted
                       (Passed (Some (ActivePower (Fin (-100)) "MW"))))
                    _ eq_refl) _ eq_refl).
  - exact (R (MonitoredLine_rated Omitted
                (Passed (Some (ActivePower (Fin 50) "MW")))) "MW" eq_refl).
Defined.

(** ** Area interchanges *)

(** C5: [AreaInterchange] cannot be constructed without [max_power_flow]
    or without [min_power_flow]; every instance has [max_power_flow] >= 0
    and [min_power_flow] <= 0; a construction with [max_power_flow=-10]
    fails with [SignConstraintError] for that field. *)
Theorem AreaInterchange_flows :
  (forall a,
      AreaInterchange.max_power_flow a = Omitted ->
      fails_with (AreaInterchange.new a) "max_power_flow" MissingFieldError) /\
  (forall a,
      AreaInterchange.min_power_flow a = Omitted ->
      fails_with (AreaInterchange.new a) "min_power_flow" MissingFieldError) /\
  (forall a i,
      AreaInterchange.new a = Valid i ->
      float_le zero (magnitude (AreaInterchange.max_power_flow i)) = true /\
      float_le (magnitude (AreaInterchange.min_power_flow i)) zero = true) /\
  (forall a u,
      AreaInterchange.max_power_flow a = Passed (ActivePower (Fin (-10)) u) ->
      fails_with (AreaInterchange.new a) "max_power_flow" SignConstraintError).
Proof.
  repeat match goal with |- _ /\ _ => split end.
  - intros a H. eapply fails_with_reports;
      [unfold AreaInterchange.new;
       report_field ltac:(rewrite H; apply required_Omitted_reports)
      | reflexivity].
  - intros a H. eapply fails_with_reports;
      [unfold AreaInterchange.new;
       report_field ltac:(rewrite H; apply required_Omitted_reports)
      | reflexivity].
  - intros a i H. unfold AreaInterchange.new in H. invert_ap H. simpl.
    destruct (AreaInterchange.max_power_flow a) as [|qmax]; [discriminate|].
    destruct (AreaInterchange.min_power_flow a) as [|qmin]; [discriminate|].
    simpl in *.
    match goal with
    | H1 : ge_0 _ _ = Valid _, H2 : le_0 _ _ = Valid _ |- _ =>
        apply ge_0_Valid_inv in H1; apply le_0_Valid_inv in H2;
        destruct H1 as [-> H1]; destruct H2 as [-> H2]; auto
    end.
  - intros a u H. eapply fails_with_reports;
      [unfold AreaInterchange.new;
       report_field ltac:(rewrite H; apply ge_0_reports; reflexivity)
      | reflexivity].
Qed.

Lemma AreaInterchange_flows_witness :
  fails_with
    (AreaInterchange.new
       (AreaInterchange_limited Omitted (Passed (ActivePower (Fin (-1)) "MW"))))
    "max_power_flow" MissingFieldError /\
  fails_with
    (AreaInterchange.new
       (AreaInterchange_limited (Passed (ActivePower (Fin 1) "MW")) Omitted))
    "min_power_flow" MissingFieldError /\
  (float_le zero (magnitude (ActivePower (Fin 1) "MW")) = true /\
   float_le (magnitude (ActivePower (Fin (-1)) "MW")) zero = true) /\
  fails_with
    (AreaInterchange.new
       (AreaInterchange_limited (Passed (ActivePower (Fin (-10)) "MW"))
          (Passed (ActivePower (Fin (-1)) "MW"))))
    "max_power_flow" SignConstraintError.
Proof.
  destruct AreaInterchange_flows as (M1 & M2 & K & R).
  repeat match goal with |- _ /\ _ => split end.
  - exact (M1 (AreaInterchange_limited Omitted
                 (Passed (ActivePower (Fin (-1)) "MW"))) eq_refl).
  - exact (M2 (AreaInterchange_limited
                 (Passed (ActivePower (Fin 1) "MW")) Omitted) eq_refl).
  - exact (proj1 (K (AreaInterchange_limited
                       (Passed (ActivePower (Fin 1) "MW"))
                       (Passed (ActivePower (Fin (-1)) "MW"))) _ eq_refl)).
  - exact (proj2 (K (AreaInterchange_limited
                       (Passed (ActivePower (Fin 1) "MW"))
                       (Passed (ActivePower (Fin (-1)) "MW"))) _ eq_refl)).
  - exact (R (AreaInterchange_limited (Passed (ActivePower (Fin (-10)) "MW"))
                (Passed (ActivePower (Fin (-1)) "MW"))) "MW" eq_refl).
Defined.

(** ** Optional fields of [TModelHVDCLine] *)

Ltac solve_accepts_None :=
  let a := fresh "a" in
  let h := fresh "h" in
  let H := fresh "H" in
  intros a h H; unfold TModelHVDCLine.new in H; invert_ap H;
  unfold TModelHVDCLine.new; simpl;
  repeat match goal with E : _ = Valid _ |- _ => rewrite E; clear E end;
  reflexivity.

Ltac solve_defaults l :=
  let a := fresh "a" in
  let h := fresh "h" in
  let H := fresh "H" in
  intros a h H; unfold TModelHVDCLine.new in H; invert_ap H;
  match goal with
  | E : with_default _ _ l ?k = Valid _ |- _ =>
      apply (optional_Valid_inv _ (fun v => float_le zero v = true) _ _ _
               (NonNegativeFloat_Valid_inv _)) in E;
      destruct k as [|[?|]]; simpl;
      [exact E | exact (proj1 E) | exact E]
  end.

(** C10: on [TModelHVDCLine] each of [rating_up], [rating_down],
    [resistance], [inductance] and [capacitance] may be passed [None], and
    the field of the instance then holds [None]; the default 0 of
    [resistance], [inductance] and [capacitance] is used only when the
    field is omitted, so an instance need not hold a number there.  Both
    ways of calling succeed: a call whose inherited part constructs and
    that omits [losses] and omits or passes [None] for each of the five
    fields returns an instance, with [None] where [None] was passed and
    the default where the field was omitted. *)
Theorem TModelHVDCLine_optional_fields :
  accepts_None (@with_rating_up) /\
  accepts_None (@with_rating_down) /\
  accepts_None (@with_resistance) /\
  accepts_None (@with_inductance) /\
  accepts_None (@with_capacitance) /\
  defaults_to_zero_when_omitted (@TModelHVDCLine.resistance) /\
  defaults_to_zero_when_omitted (@TModelHVDCLine.inductance) /\
  defaults_to_zero_when_omitted (@TModelHVDCLine.capacitance) /\
  (exists h,
      TModelHVDCLine.new TModelHVDCLine_all_None = Valid h /\
      TModelHVDCLine.rating_up h = None /\
      TModelHVDCLine.rating_down h = None /\
      TModelHVDCLine.resistance h = None /\
      TModelHVDCLine.inductance h = None /\
      TModelHVDCLine.capacitance h = None) /\
  accepts_omitted (@with_rating_up) None /\
  accepts_omitted (@with_rating_down) None /\
  accepts_omitted (@with_resistance) (Some zero) /\
  accepts_omitted (@with_inductance) (Some zero) /\
  accepts_omitted (@with_capacitance) (Some zero) /\
  (forall a d,
      DCBranch.new (TModelHVDCLine.base a) = Valid d ->
      None_or_omitted (TModelHVDCLine.rating_up a) ->
      None_or_omitted (TModelHVDCLine.rating_down a) ->
      TModelHVDCLine.losses a = Omitted ->
      None_or_omitted (TModelHVDCLine.resistance a) ->
      None_or_omitted (TModelHVDCLine.inductance a) ->
      None_or_omitted (TModelHVDCLine.capacitance a) ->
      TModelHVDCLine.new a
      = Valid (@TModelHVDCLine.Build_fields instance d None None zero
                 (held (Some zero) (TModelHVDCLine.resistance a))
                 (held (Some zero) (TModelHVDCLine.inductance a))
                 (held (Some zero) (TModelHVDCLine.capacitance a)))) /\
  (exists h,
      TModelHVDCLine.new TModelHVDCLine_resistance_None = Valid h /\
      TModelHVDCLine.rating_up h = Some (Fin 100) /\
      TModelHVDCLine.rating_down h = Some (Fin (-80)) /\
      TModelHVDCLine.losses h = zero /\
      TModelHVDCLine.resistance h = None /\
      TModelHVDCLine.inductance h = Some zero /\
      TModelHVDCLine.capacitance h = Some zero).
Proof.
  repeat match goal with |- _ /\ _ => split end.
  - solve_accepts_None.
  - solve_accepts_None.
  - solve_accepts_None.
  - solve_accepts_None.
  - solve_accepts_None.
  - solve_defaults "resistance".
  - solve_defaults "inductance".
  - solve_defaults "capacitance".
  - eexists. split; [vm_compute; reflexivity|]. repeat split.
  - solve_accepts_None.
  - solve_accepts_None.
  - solve_accepts_None.
  - solve_accepts_None.
  - solve_accepts_None.
  - intros a d Hd [H1|H1] [H2|H2] H3 [H4|H4] [H5|H5] [H6|H6];
      unfold TModelHVDCLine.new;
      rewrite Hd, H1, H2, H3, H4, H5, H6; reflexivity.
  - eexists. split; [vm_compute; reflexivity|]. repeat split.
Qed.

Lemma TModelHVDCLine_optional_fields_witness :
  (exists h,
      TModelHVDCLine.new
        (with_resistance (Passed None) TModelHVDCLine_all_None) = Valid h /\
      TModelHVDCLine.resistance h = None) /\
  (exists h,
      TModelHVDCLine.new
        (with_resistance Omitted TModelHVDCLine_resistance_None) = Valid h /\
      TModelHVDCLine.resistance h = Some zero) /\
  (exists h,
      TModelHVDCLine.new TModelHVDCLine_all_None = Valid h /\
      TModelHVDCLine.losses h = zero).
Proof.
  destruct TModelHVDCLine_optional_fields
    as (_ & _ & A & _ & _ & _ & _ & _ & _ & _ & _ & O & _ & _ & U & _).
  repeat match goal with |- _ /\ _ => split end.
  - eexists. split.
    + apply (A TModelHVDCLine_all_None). vm_compute. reflexivity.
    + reflexivity.
  - eexists. split.
    + apply (O TModelHVDCLine_resistance_None). vm_compute. reflexivity.
    + reflexivity.
  - eexists. split.
    + apply (U TModelHVDCLine_all_None).
      * vm_compute. reflexivity.
      * right. reflexivity.
      * right. reflexivity.
      * reflexivity.
      * right. reflexivity.
      * right. reflexivity.
      * right. reflexivity.
    + reflexivity.
Defined.

(** ** Serialization of the range fields *)

Lemma get_app (k : string) (d1 d2 : dict) :
  get k (d1 ++ d2)
  = match get k d1 with Some v => Some v | None => get k d2 end.
Proof.
  induction d1 as [|[k' v] d1 IH]; simpl; [reflexivity|].
  destruct (String.eqb k k'); [reflexivity | exact IH].
Qed.

Lemma get_entry {A : Type} (k k' : string) (exclude_none : bool)
  (value : option A) (s : pyobject) :
  get k (entry exclude_none k' value s)
  = if String.eqb k k'
    then if exclude_none && is_none value then None else Some s
    else None.
Proof.
  unfold entry. destruct (exclude_none && is_none value); simpl.
  - destruct (String.eqb k k'); reflexivity.
  - destruct (String.eqb k k'); reflexivity.
Qed.

Lemma get_miss_after {A : Type} (o : option A) :
  match o with Some v => Some v | None => None end = o.
Proof. destruct o; reflexivity. Qed.

Lemma ACBranch_dump_angle_limits (e : bool) (b : ACBranch.t) :
  get "angle_limits" (ACBranch.model_dump e b)
  = dumped e (ACBranch.angle_limits b).
Proof.
  unfold ACBranch.model_dump, Branch.model_dump, Device.model_dump.
  repeat rewrite get_app. repeat rewrite get_entry. simpl.
  destruct e, (ACBranch.angle_limits b); reflexivity.
Qed.

Lemma DCBranch_dump_limits (e : bool) (d : DCBranch.t) :
  get "active_power_limits_from" (DCBranch.model_dump e d)
  = dumped e (DCBranch.active_power_limits_from d) /\
  get "active_power_limits_to" (DCBranch.model_dump e d)
  = dumped e (DCBranch.active_power_limits_to d) /\
  get "reactive_power_limits_from" (DCBranch.model_dump e d)
  = dumped e (DCBranch.reactive_power_limits_from d) /\
  get "reactive_power_limits_to" (DCBranch.model_dump e d)
  = dumped e (DCBranch.reactive_power_limits_to d).
Proof.
  unfold DCBranch.model_dump, Branch.model_dump, Device.model_dump.
  repeat rewrite get_app. repeat rewrite get_entry. simpl.
  repeat split.
  - destruct e, (DCBranch.active_power_limits_from d); reflexivity.
  - destruct e, (DCBranch.active_power_limits_to d); reflexivity.
  - destruct e, (DCBranch.reactive_power_limits_from d); reflexivity.
  - destruct e, (DCBranch.reactive_power_limits_to d); reflexivity.
Qed.

(** C2 (claim as written, refuted): the dump of [Line.example()], whose
    [angle_limits] is absent, has the key [angle_limits], with the value
    [None]: the field is not omitted. *)
Lemma Line_example_dumps_None :
  exists l,
    Line.example = Valid l /\
    ACBranch.angle_limits (Line.base l) = None /\
    get "angle_limits" (Line.model_dump false l) = Some PyNone /\
    get "angle_limits" (Line.model_dump false l) <> None.
Proof.
  eexists. split; [vm_compute; reflexivity|].
  split; [reflexivity|]. split; [reflexivity|]. discriminate.
Qed.

(** C2 (amended): in the dump of every AC or DC branch a range field that
    is present is the structure with the two keys [min] and [max]; one
    that is absent is emitted with the value [None] by the default dump,
    and is left out only when the dump excludes [None] values. *)
Theorem range_fields_dumped (exclude_none : bool) :
  (forall b : ACBranch.t,
      get "angle_limits" (ACBranch.model_dump exclude_none b)
      = dumped exclude_none (ACBranch.angle_limits b)) /\
  (forall m : MonitoredLine.t,
      get "angle_limits" (MonitoredLine.model_dump exclude_none m)
      = dumped exclude_none (ACBranch.angle_limits (MonitoredLine.base m))) /\
  (forall l : Line.t,
      get "angle_limits" (Line.model_dump exclude_none l)
      = dumped exclude_none (ACBranch.angle_limits (Line.base l))) /\
  (forall w : Transformer2W.t,
      get "angle_limits" (Transformer2W.model_dump exclude_none w)
      = dumped exclude_none (ACBranch.angle_limits (Transformer2W.base w))) /\
  (forall d : DCBranch.t,
      get "active_power_limits_from" (DCBranch.model_dump exclude_none d)
      = dumped exclude_none (DCBranch.active_power_limits_from d) /\
      get "active_power_limits_to" (DCBranch.model_dump exclude_none d)
      = dumped exclude_none (DCBranch.active_power_limits_to d) /\
      get "reactive_power_limits_from" (DCBranch.model_dump exclude_none d)
      = dumped exclude_none (DCBranch.reactive_power_limits_from d) /\
      get "reactive_power_limits_to" (DCBranch.model_dump exclude_none d)
      = dumped exclude_none (DCBranch.reactive_power_limits_to d)) /\
  (forall h : TModelHVDCLine.t,
      let d := TModelHVDCLine.base h in
      get "active_power_limits_from" (TModelHVDCLine.model_dump exclude_none h)
      = dumped exclude_none (DCBranch.active_power_limits_from d) /\
      get "active_power_limits_to" (TModelHVDCLine.model_dump exclude_none h)
      = dumped exclude_none (DCBranch.active_power_limits_to d) /\
      get "reactive_power_limits_from"
        (TModelHVDCLine.model_dump exclude_none h)
      = dumped exclude_none (DCBranch.reactive_power_limits_from d) /\
      get "reactive_power_limits_to" (TModelHVDCLine.model_dump exclude_none h)
      = dumped exclude_none (DCBranch.reactive_power_limits_to d)).
Proof.
  repeat match goal with |- _ /\ _ => split end.
  - intros b. apply ACBranch_dump_angle_limits.
  - intros m. unfold MonitoredLine.model_dump.
    repeat rewrite get_app. repeat rewrite get_entry.
    rewrite ACBranch_dump_angle_limits. simpl. apply get_miss_after.
  - intros l. apply ACBranch_dump_angle_limits.
  - intros w. apply ACBranch_dump_angle_limits.
  - intros d. apply DCBranch_dump_limits.
  - intros h d.
    destruct (DCBranch_dump_limits exclude_none d) as (E1 & E2 & E3 & E4).
    unfold TModelHVDCLine.model_dump. fold d.
    repeat rewrite get_app. repeat rewrite get_entry.
    rewrite E1, E2, E3, E4. simpl.
    repeat split; apply get_miss_after.
Qed.

(** * Further properties of the constructors *)

(** ** When a field validates *)

Lemma ap_Valid_iff {A B : Type} (f : Validation (A -> B)) (x : Validation A)
  (b : B) :
  f <*> x = Valid b <-> exists g a, f = Valid g /\ x = Valid a /\ b = g a.
Proof.
  split; [apply ap_Valid_inv|].
  intros (g & a & -> & -> & ->). reflexivity.
Qed.

Lemma optional_any_Valid {A : Type} (default : option A) (l : string)
  (k : kwarg (option A)) (v : option A) :
  with_default (nullable any) default l k = Valid v <-> stored default k v.
Proof.
  unfold stored. destruct k as [|[x|]]; simpl; split; congruence.
Qed.

Lemma optional_ge_0_Valid (l : string) (k : kwarg (option Quantity))
  (v : option Quantity) :
  with_default (nullable ge_0) None l k = Valid v
  <-> stored None k v /\ non_negative v.
Proof.
  unfold stored, non_negative. destruct k as [|[q|]]; cbn [with_default nullable fmap].
  - split; [intros H; injection H as <-; split; [reflexivity|discriminate]
           | intros [-> _]; reflexivity].
  - unfold ge_0. destruct (float_le zero (magnitude q)) eqn:E; cbn [fmap].
    + split; [intros H; injection H as <-; split; [reflexivity|]
             | intros [-> _]; reflexivity].
      intros q' Hq. injection Hq as <-. exact E.
    + split; [discriminate|]. intros [-> H].
      specialize (H q eq_refl). congruence.
  - split; [intros H; injection H as <-; split; [reflexivity|discriminate]
           | intros [-> _]; reflexivity].
Qed.

Lemma optional_le_0_Valid (l : string) (k : kwarg (option Quantity))
  (v : option Quantity) :
  with_default (nullable le_0) None l k = Valid v
  <-> stored None k v /\ non_positive v.
Proof.
  unfold stored, non_positive. destruct k as [|[q|]]; cbn [with_default nullable fmap].
  - split; [intros H; injection H as <-; split; [reflexivity|discriminate]
           | intros [-> _]; reflexivity].
  - unfold le_0. destruct (float_le (magnitude q) zero) eqn:E; cbn [fmap].
    + split; [intros H; injection H as <-; split; [reflexivity|]
             | intros [-> _]; reflexivity].
      intros q' Hq. injection Hq as <-. exact E.
    + split; [discriminate|]. intros [-> H].
      specialize (H q eq_refl). congruence.
  - split; [intros H; injection H as <-; split; [reflexivity|discriminate]
           | intros [-> _]; reflexivity].
Qed.

Lemma optional_NonNegativeFloat_Valid (default : option pyfloat) (l : string)
  (k : kwarg (option pyfloat)) (v : option pyfloat) :
  float_non_negative default ->
  with_default (nullable NonNegativeFloat) default l k = Valid v
  <-> stored default k v /\ float_non_negative v.
Proof.
  intros Hd. unfold stored, float_non_negative. destruct k as [|[q|]]; cbn [with_default nullable fmap].
  - split; [intros H; injection H as <-; split; [reflexivity|exact Hd]
           | intros [-> _]; reflexivity].
  - unfold NonNegativeFloat. destruct (float_le zero q) eqn:E; cbn [fmap].
    + split; [intros H; injection H as <-; split; [reflexivity|]
             | intros [-> _]; reflexivity].
      intros q' Hq. injection Hq as <-. exact E.
    + split; [discriminate|]. intros [-> H].
      specialize (H q eq_refl). congruence.
  - split; [intros H; injection H as <-; split; [reflexivity|discriminate]
           | intros [-> _]; reflexivity].
Qed.

Lemma optional_NonPositiveFloat_Valid (l : string)
  (k : kwarg (option pyfloat)) (v : option pyfloat) :
  with_default (nullable NonPositiveFloat) None l k = Valid v
  <-> stored None k v /\ float_non_positive v.
Proof.
  unfold stored, float_non_positive. destruct k as [|[q|]]; cbn [with_default nullable fmap].
  - split; [intros H; injection H as <-; split; [reflexivity|discriminate]
           | intros [-> _]; reflexivity].
  - unfold NonPositiveFloat. destruct (float_le q zero) eqn:E; cbn [fmap].
    + split; [intros H; injection H as <-; split; [reflexivity|]
             | intros [-> _]; reflexivity].
      intros q' Hq. injection Hq as <-. exact E.
    + split; [discriminate|]. intros [-> H].
      specialize (H q eq_refl). congruence.
  - split; [intros H; injection H as <-; split; [reflexivity|discriminate]
           | intros [-> _]; reflexivity].
Qed.

Lemma default_NonNegativeFloat_Valid (l : string) (k : kwarg pyfloat)
  (v : pyfloat) :
  with_default NonNegativeFloat zero l k = Valid v
  <-> stored zero k v /\ float_le zero v = true.
Proof.
  unfold stored. destruct k as [|q]; cbn [with_default required].
  - split; [intros H; injection H as <-; split; reflexivity
           | intros [-> _]; reflexivity].
  - unfold NonNegativeFloat. destruct (float_le zero q) eqn:E.
    + split; [intros H; injection H as <-; auto | intros [-> _]; reflexivity].
    + split; [discriminate|]. intros [-> H]. congruence.
Qed.

Lemma required_instance_of_Valid (cls : BusClass) (l : string)
  (k : kwarg Bus) (v : Bus) :
  required (instance_of cls) l k = Valid v
  <-> k = Passed v /\ issubclass (bus_class v) cls = true.
Proof.
  destruct k as [|b]; cbn [with_default required].
  - split; [discriminate | intros [H _]; discriminate].
  - unfold instance_of. destruct (issubclass (bus_class b) cls) eqn:E.
    + split; [intros H; injection H as <-; auto|].
      intros [H _]. injection H as <-. reflexivity.
    + split; [discriminate|]. intros [H H']. injection H as <-. congruence.
Qed.

Lemma required_ge_0_Valid (l : string) (k : kwarg Quantity) (v : Quantity) :
  required ge_0 l k = Valid v
  <-> k = Passed v /\ float_le zero (magnitude v) = true.
Proof.
  destruct k as [|q]; cbn [with_default required].
  - split; [discriminate | intros [H _]; discriminate].
  - unfold ge_0. destruct (float_le zero (magnitude q)) eqn:E.
    + split; [intros H; injection H as <-; auto|].
      intros [H _]. injection H as <-. reflexivity.
    + split; [discriminate|]. intros [H H']. injection H as <-. congruence.
Qed.

Lemma required_le_0_Valid (l : string) (k : kwarg Quantity) (v : Quantity) :
  required le_0 l k = Valid v
  <-> k = Passed v /\ float_le (magnitude v) zero = true.
Proof.
  destruct k as [|q]; cbn [with_default required].
  - split; [discriminate | intros [H _]; discriminate].
  - unfold le_0. destruct (float_le (magnitude q) zero) eqn:E.
    + split; [intros H; injection H as <-; auto|].
      intros [H _]. injection H as <-. reflexivity.
    + split; [discriminate|]. intros [H H']. injection H as <-. congruence.
Qed.

Lemma float_non_negative_None : float_non_negative None.
Proof. intros v H. discriminate. Qed.

Lemma float_non_negative_zero : float_non_negative (Some zero).
Proof. intros v H. injection H as <-. reflexivity. Qed.

(** Turns the validity of every field into what the instance holds. *)
Ltac fields_valid :=
  repeat match goal with
  | H : with_default (nullable any) _ _ _ = Valid _ |- _ =>
      apply optional_any_Valid in H
  | H : with_default (nullable ge_0) None _ _ = Valid _ |- _ =>
      apply optional_ge_0_Valid in H
  | H : with_default (nullable le_0) None _ _ = Valid _ |- _ =>
      apply optional_le_0_Valid in H
  | H : with_default (nullable NonNegativeFloat) _ _ _ = Valid _ |- _ =>
      apply optional_NonNegativeFloat_Valid in H;
      [| first [apply float_non_negative_None
               | apply float_non_negative_zero]]
  | H : with_default (nullable NonPositiveFloat) None _ _ = Valid _ |- _ =>
      apply optional_NonPositiveFloat_Valid in H
  | H : with_default NonNegativeFloat zero _ _ = Valid _ |- _ =>
      apply default_NonNegativeFloat_Valid in H
  | H : required (instance_of _) _ _ = Valid _ |- _ =>
      apply required_instance_of_Valid in H
  | H : required ge_0 _ _ = Valid _ |- _ => apply required_ge_0_Valid in H
  | H : required le_0 _ _ = Valid _ |- _ => apply required_le_0_Valid in H
  end.

(** Replaces every field of a constructor by the value it validates to. *)
Ltac fields_rewrite :=
  repeat match goal with
  | H : stored ?d ?k ?v
    |- context [with_default (nullable any) ?d ?l ?k] =>
      rewrite (proj2 (@optional_any_Valid _ d l k v) H)
  | H : stored None ?k ?v, H' : non_negative ?v
    |- context [with_default (nullable ge_0) None ?l ?k] =>
      rewrite (proj2 (optional_ge_0_Valid l k v) (conj H H'))
  | H : stored None ?k ?v, H' : non_positive ?v
    |- context [with_default (nullable le_0) None ?l ?k] =>
      rewrite (proj2 (optional_le_0_Valid l k v) (conj H H'))
  | H : stored None ?k ?v, H' : float_non_negative ?v
    |- context [with_default (nullable NonNegativeFloat) None ?l ?k] =>
      rewrite (proj2 (@optional_NonNegativeFloat_Valid None l k v
                        float_non_negative_None) (conj H H'))
  | H : stored (Some zero) ?k ?v, H' : float_non_negative ?v
    |- context [with_default (nullable NonNegativeFloat) (Some zero) ?l ?k] =>
      rewrite (proj2 (@optional_NonNegativeFloat_Valid (Some zero) l k v
                        float_non_negative_zero) (conj H H'))
  | H : stored None ?k ?v, H' : float_non_positive ?v
    |- context [with_default (nullable NonPositiveFloat) None ?l ?k] =>
      rewrite (proj2 (optional_NonPositiveFloat_Valid l k v) (conj H H'))
  | H : stored zero ?k ?v, H' : float_le zero ?v = true
    |- context [with_default NonNegativeFloat zero ?l ?k] =>
      rewrite (proj2 (default_NonNegativeFloat_Valid l k v) (conj H H'))
  | H : ?k = Passed ?v, H' : issubclass (bus_class ?v) ?c = true
    |- context [required (instance_of ?c) ?l ?k] =>
      rewrite (proj2 (required_instance_of_Valid c l k v) (conj H H'))
  | H : ?k = Passed ?v, H' : float_le zero (magnitude ?v) = true
    |- context [required ge_0 ?l ?k] =>
      rewrite (proj2 (required_ge_0_Valid l k v) (conj H H'))
  | H : ?k = Passed ?v, H' : float_le (magnitude ?v) zero = true
    |- context [required le_0 ?l ?k] =>
      rewrite (proj2 (required_le_0_Valid l k v) (conj H H'))
  end.

(** ** What each constructor accepts *)

(** X1: [ACBranch(...)] returns the instance [b] exactly when the device part
    validates, both buses are passed and are AC buses, and [rating],
    [active_power_flow] and [reactive_power_flow] are not negative; every
    field of [b] then holds the value passed, or [None] when omitted.
    [r], [x], [primary_shunt] and [angle_limits] are not constrained. *)
Theorem ACBranch_new_Valid_iff (a : ACBranch.kwargs) (b : ACBranch.t) :
  ACBranch.new a = Valid b <->
  Branch.new (ACBranch.base a) = Valid (ACBranch.base b) /\
  (ACBranch.from_bus a = Passed (ACBranch.from_bus b) /\
   issubclass (bus_class (ACBranch.from_bus b)) ACBus_cls = true) /\
  (ACBranch.to_bus a = Passed (ACBranch.to_bus b) /\
   issubclass (bus_class (ACBranch.to_bus b)) ACBus_cls = true) /\
  stored None (ACBranch.r a) (ACBranch.r b) /\
  stored None (ACBranch.x a) (ACBranch.x b) /\
  stored None (ACBranch.primary_shunt a) (ACBranch.primary_shunt b) /\
  (stored None (ACBranch.rating a) (ACBranch.rating b) /\
   non_negative (ACBranch.rating b)) /\
  (stored None (ACBranch.active_power_flow a) (ACBranch.active_power_flow b) /\
   non_negative (ACBranch.active_power_flow b)) /\
  (stored None (ACBranch.reactive_power_flow a)
     (ACBranch.reactive_power_flow b) /\
   non_negative (ACBranch.reactive_power_flow b)) /\
  stored None (ACBranch.angle_limits a) (ACBranch.angle_limits b).
Proof.
  split.
  - intros H. unfold ACBranch.new in H. invert_ap H. fields_valid.
    cbn [ACBranch.base ACBranch.from_bus ACBranch.to_bus ACBranch.r ACBranch.x
         ACBranch.primary_shunt ACBranch.rating ACBranch.active_power_flow
         ACBranch.reactive_power_flow ACBranch.angle_limits].
    tauto.
  - intros (H0 & [H1 H1'] & [H2 H2'] & H3 & H4 & H5 & [H6 H6'] & [H7 H7']
            & [H8 H8'] & H9).
    unfold ACBranch.new. rewrite H0. fields_rewrite.
    destruct b. reflexivity.
Qed.

Lemma ACBranch_new_Valid_iff_witness :
  exists b,
    ACBranch.new (ACBranch_rated (Passed (Some (ActivePower (Fin 100) "MW"))))
    = Valid b /\
    non_negative (ACBranch.rating b) /\
    stored None Omitted (ACBranch.angle_limits b).
Proof.
  eexists. split; [vm_compute; reflexivity|].
  pose proof (proj1 (ACBranch_new_Valid_iff
                       (ACBranch_rated
                          (Passed (Some (ActivePower (Fin 100) "MW")))) _)
                eq_refl) as H.
  split; [exact (proj2 (proj1 (proj2 (proj2 (proj2 (proj2 (proj2 (proj2 H)))))))) |].
  exact (proj2 (proj2 (proj2 (proj2 (proj2 (proj2 (proj2 (proj2 (proj2 H))))))))).
Defined.

(** X2: [MonitoredLine(...)] returns [m] exactly when its inherited part
    constructs as an [ACBranch], [rating_up] is not negative and
    [rating_down] is not positive; [losses] is stored whatever its value. *)
Theorem MonitoredLine_new_Valid_iff (a : MonitoredLine.kwargs)
  (m : MonitoredLine.t) :
  MonitoredLine.new a = Valid m <->
  ACBranch.new (MonitoredLine.base a) = Valid (MonitoredLine.base m) /\
  (stored None (MonitoredLine.rating_up a) (MonitoredLine.rating_up m) /\
   non_negative (MonitoredLine.rating_up m)) /\
  (stored None (MonitoredLine.rating_down a) (MonitoredLine.rating_down m) /\
   non_positive (MonitoredLine.rating_down m)) /\
  stored None (MonitoredLine.losses a) (MonitoredLine.losses m).
Proof.
  split.
  - intros H. unfold MonitoredLine.new in H. invert_ap H. fields_valid.
    cbn [MonitoredLine.base MonitoredLine.rating_up MonitoredLine.rating_down
         MonitoredLine.losses].
    tauto.
  - intros (H0 & [H1 H1'] & [H2 H2'] & H3).
    unfold MonitoredLine.new. rewrite H0. fields_rewrite.
    destruct m. reflexivity.
Qed.

Lemma MonitoredLine_new_Valid_iff_witness :
  exists m,
    MonitoredLine.new
      (MonitoredLine_rated Omitted
         (Passed (Some (ActivePower (Fin (-100)) "MW")))) = Valid m /\
    non_positive (MonitoredLine.rating_down m).
Proof.
  eexists. split; [vm_compute; reflexivity|].
  exact (proj2 (proj1 (proj2 (proj2 (proj1 (MonitoredLine_new_Valid_iff
    (MonitoredLine_rated Omitted
       (Passed (Some (ActivePower (Fin (-100)) "MW")))) _) eq_refl))))).
Defined.

(** X3: [DCBranch(...)] returns [d] exactly when the device part validates,
    both buses are passed (a bus of any class) and [active_power_flow] is
    not negative; the four limit ranges are stored as passed. *)
Theorem DCBranch_new_Valid_iff (a : DCBranch.kwargs) (d : DCBranch.t) :
  DCBranch.new a = Valid d <->
  Branch.new (DCBranch.base a) = Valid (DCBranch.base d) /\
  DCBranch.from_bus a = Passed (DCBranch.from_bus d) /\
  DCBranch.to_bus a = Passed (DCBranch.to_bus d) /\
  (stored None (DCBranch.active_power_flow a) (DCBranch.active_power_flow d) /\
   non_negative (DCBranch.active_power_flow d)) /\
  stored None (DCBranch.active_power_limits_from a)
    (DCBranch.active_power_limits_from d) /\
  stored None (DCBranch.active_power_limits_to a)
    (DCBranch.active_power_limits_to d) /\
  stored None (DCBranch.reactive_power_limits_from a)
    (DCBranch.reactive_power_limits_from d) /\
  stored None (DCBranch.reactive_power_limits_to a)
    (DCBranch.reactive_power_limits_to d).
Proof.
  split.
  - intros H. unfold DCBranch.new in H. invert_ap H. fields_valid.
    cbn [DCBranch.base DCBranch.from_bus DCBranch.to_bus
         DCBranch.active_power_flow DCBranch.active_power_limits_from
         DCBranch.active_power_limits_to DCBranch.reactive_power_limits_from
         DCBranch.reactive_power_limits_to].
    tauto.
  - intros (H0 & H1 & H2 & [H3 H3'] & H4 & H5 & H6 & H7).
    assert (B1 : issubclass (bus_class (DCBranch.from_bus d)) Bus_cls = true)
      by reflexivity.
    assert (B2 : issubclass (bus_class (DCBranch.to_bus d)) Bus_cls = true)
      by reflexivity.
    unfold DCBranch.new. rewrite H0. fields_rewrite.
    destruct d. reflexivity.
Qed.

(** X4: [AreaInterchange(...)] returns [i] exactly when the device part
    validates, [max_power_flow] is passed and not negative and
    [min_power_flow] is passed and not positive; the areas are stored as
    passed, [None] when omitted. *)
Theorem AreaInterchange_new_Valid_iff (a : AreaInterchange.kwargs)
  (i : AreaInterchange.t) :
  AreaInterchange.new a = Valid i <->
  Branch.new (AreaInterchange.base a) = Valid (AreaInterchange.base i) /\
  (AreaInterchange.max_power_flow a = Passed (AreaInterchange.max_power_flow i)
   /\ float_le zero (magnitude (AreaInterchange.max_power_flow i)) = true) /\
  (AreaInterchange.min_power_flow a = Passed (AreaInterchange.min_power_flow i)
   /\ float_le (magnitude (AreaInterchange.min_power_flow i)) zero = true) /\
  stored None (AreaInterchange.from_area a) (AreaInterchange.from_area i) /\
  stored None (AreaInterchange.to_area a) (AreaInterchange.to_area i).
Proof.
  split.
  - intros H. unfold AreaInterchange.new in H. invert_ap H. fields_valid.
    cbn [AreaInterchange.base AreaInterchange.max_power_flow
         AreaInterchange.min_power_flow AreaInterchange.from_area
         AreaInterchange.to_area].
    tauto.
  - intros (H0 & [H1 H1'] & [H2 H2'] & H3 & H4).
    unfold AreaInterchange.new. rewrite H0. fields_rewrite.
    destruct i. reflexivity.
Qed.

(** X5: [TModelHVDCLine(...)] returns [h] exactly when its inherited part
    constructs as a [DCBranch], [rating_up] is not negative, [rating_down]
    is not positive, and [losses], [resistance], [inductance] and
    [capacitance] are not negative; an omitted [losses], [resistance],
    [inductance] or [capacitance] holds 0, an omitted rating [None]. *)
Theorem TModelHVDCLine_new_Valid_iff (a : TModelHVDCLine.kwargs)
  (h : TModelHVDCLine.t) :
  TModelHVDCLine.new a = Valid h <->
  DCBranch.new (TModelHVDCLine.base a) = Valid (TModelHVDCLine.base h) /\
  (stored None (TModelHVDCLine.rating_up a) (TModelHVDCLine.rating_up h) /\
   float_non_negative (TModelHVDCLine.rating_up h)) /\
  (stored None (TModelHVDCLine.rating_down a) (TModelHVDCLine.rating_down h) /\
   float_non_positive (TModelHVDCLine.rating_down h)) /\
  (stored zero (TModelHVDCLine.losses a) (TModelHVDCLine.losses h) /\
   float_le zero (TModelHVDCLine.losses h) = true) /\
  (stored (Some zero) (TModelHVDCLine.resistance a)
     (TModelHVDCLine.resistance h) /\
   float_non_negative (TModelHVDCLine.resistance h)) /\
  (stored (Some zero) (TModelHVDCLine.inductance a)
     (TModelHVDCLine.inductance h) /\
   float_non_negative (TModelHVDCLine.inductance h)) /\
  (stored (Some zero) (TModelHVDCLine.capacitance a)
     (TModelHVDCLine.capacitance h) /\
   float_non_negative (TModelHVDCLine.capacitance h)).
Proof.
  split.
  - intros H. unfold TModelHVDCLine.new in H. invert_ap H. fields_valid.
    cbn [TModelHVDCLine.base TModelHVDCLine.rating_up
         TModelHVDCLine.rating_down TModelHVDCLine.losses
         TModelHVDCLine.resistance TModelHVDCLine.inductance
         TModelHVDCLine.capacitance].
    tauto.
  - intros (H0 & [H1 H1'] & [H2 H2'] & [H3 H3'] & [H4 H4'] & [H5 H5']
            & [H6 H6']).
    unfold TModelHVDCLine.new. rewrite H0. fields_rewrite.
    destruct h. reflexivity.
Qed.

Lemma DCBranch_new_Valid_iff_witness :
  exists d,
    DCBranch.new (TModelHVDCLine.base TModelHVDCLine_all_None) = Valid d /\
    stored None Omitted (DCBranch.active_power_limits_from d).
Proof.
  eexists. split; [vm_compute; reflexivity|].
  exact (proj1 (proj2 (proj2 (proj2 (proj2 (proj1 (DCBranch_new_Valid_iff
    (TModelHVDCLine.base TModelHVDCLine_all_None) _) eq_refl)))))).
Defined.

Lemma AreaInterchange_new_Valid_iff_witness :
  exists i,
    AreaInterchange.new
      (AreaInterchange_limited (Passed (ActivePower (Fin 1) "MW"))
         (Passed (ActivePower (Fin (-1)) "MW"))) = Valid i /\
    stored None Omitted (AreaInterchange.from_area i).
Proof.
  eexists. split; [vm_compute; reflexivity|].
  exact (proj1 (proj2 (proj2 (proj2 (proj1 (AreaInterchange_new_Valid_iff
    (AreaInterchange_limited (Passed (ActivePower (Fin 1) "MW"))
       (Passed (ActivePower (Fin (-1)) "MW"))) _) eq_refl))))).
Defined.

Lemma TModelHVDCLine_new_Valid_iff_witness :
  exists h,
    TModelHVDCLine.new TModelHVDCLine_all_None = Valid h /\
    stored zero Omitted (TModelHVDCLine.losses h).
Proof.
  eexists. split; [vm_compute; reflexivity|].
  exact (proj1 (proj1 (proj2 (proj2 (proj2 (proj1 (TModelHVDCLine_new_Valid_iff
    TModelHVDCLine_all_None _) eq_refl)))))).
Defined.

(** ** Classes that extend another *)

Lemma ap_Valid_l {A B : Type} (g : A -> B) (x : Validation A) :
  Valid g <*> x = fmap g x.
Proof. destruct x; reflexivity. Qed.

(** X6: [Line] and [Transformer2W] add nothing to the validation of
    [ACBranch]: a call returns an instance exactly when the same keyword
    arguments construct an [ACBranch], which the instance then wraps, and a
    call fails with exactly the errors of [ACBranch]. *)
Theorem Line_Transformer2W_validate_as_ACBranch :
  (forall a l,
      Line.new a = Valid l <->
      ACBranch.new (Line.base a) = Valid (Line.base l)) /\
  (forall a errs,
      Line.new a = Invalid errs <->
      ACBranch.new (Line.base a) = Invalid errs) /\
  (forall a w,
      Transformer2W.new a = Valid w <->
      ACBranch.new (Transformer2W.base a) = Valid (Transformer2W.base w)) /\
  (forall a errs,
      Transformer2W.new a = Invalid errs <->
      ACBranch.new (Transformer2W.base a) = Invalid errs).
Proof.
  repeat match goal with |- _ /\ _ => split end.
  - intros a [b]. unfold Line.new. rewrite ap_Valid_l. simpl.
    destruct (ACBranch.new (Line.base a)); simpl; split; intros H;
      first [discriminate | injection H as <-; reflexivity].
  - intros a errs. unfold Line.new. rewrite ap_Valid_l.
    destruct (ACBranch.new (Line.base a)); simpl; split; intros H;
      first [discriminate | injection H as <-; reflexivity].
  - intros a [b]. unfold Transformer2W.new. rewrite ap_Valid_l. simpl.
    destruct (ACBranch.new (Transformer2W.base a)); simpl; split; intros H;
      first [discriminate | injection H as <-; reflexivity].
  - intros a errs. unfold Transformer2W.new. rewrite ap_Valid_l.
    destruct (ACBranch.new (Transformer2W.base a)); simpl; split; intros H;
      first [discriminate | injection H as <-; reflexivity].
Qed.

(** ** What a failure reports *)

Lemma errors_located_Valid {A : Type} (names : list string) (a : A) :
  errors_located names (Valid a).
Proof. intros errs H. discriminate. Qed.

Lemma errors_located_ap {A B : Type} (names : list string)
  (f : Validation (A -> B)) (x : Validation A) :
  errors_located names f -> errors_located names x ->
  errors_located names (f <*> x).
Proof.
  intros Hf Hx errs H. destruct f as [g|e1], x as [a|e2]; simpl in H;
    try discriminate; injection H as <-.
  - apply Hx. reflexivity.
  - apply Hf. reflexivity.
  - destruct (Hf e1 eq_refl) as [N1 F1]. destruct (Hx e2 eq_refl) as [N2 F2].
    split.
    + intros E. apply app_eq_nil in E. tauto.
    + apply Forall_app. auto.
Qed.

Lemma errors_located_fmap {A B : Type} (names : list string) (g : A -> B)
  (x : Validation A) :
  errors_located names x -> errors_located names (fmap g x).
Proof.
  intros Hx errs H. destruct x as [a|e]; simpl in H; [discriminate|].
  injection H as <-. apply Hx. reflexivity.
Qed.

Lemma errors_located_one {A : Type} (names : list string) (l : string)
  (t : ErrorType) :
  In l names ->
  errors_located names (@Invalid A [ {| loc := l; type := t |} ]).
Proof.
  intros Hin errs H. injection H as <-. split; [discriminate|].
  constructor; [exact Hin | constructor].
Qed.

Lemma errors_located_incl {A : Type} (names names' : list string)
  (v : Validation A) :
  incl names names' -> errors_located names v -> errors_located names' v.
Proof.
  intros Hi Hv errs H. destruct (Hv errs H) as [N F]. split; [exact N|].
  eapply Forall_impl; [|exact F]. intros e He. apply Hi. exact He.
Qed.

Lemma any_located {A : Type} : check_located (@any A).
Proof. intros names l a _. apply errors_located_Valid. Qed.

Lemma ge_0_located : check_located ge_0.
Proof.
  intros names l a Hin. unfold ge_0. destruct (float_le zero (magnitude a)).
  - apply errors_located_Valid.
  - apply errors_located_one. exact Hin.
Qed.

Lemma le_0_located : check_located le_0.
Proof.
  intros names l a Hin. unfold le_0. destruct (float_le (magnitude a) zero).
  - apply errors_located_Valid.
  - apply errors_located_one. exact Hin.
Qed.

Lemma NonNegativeFloat_located : check_located NonNegativeFloat.
Proof.
  intros names l a Hin. unfold NonNegativeFloat. destruct (float_le zero a).
  - apply errors_located_Valid.
  - apply errors_located_one. exact Hin.
Qed.

Lemma NonPositiveFloat_located : check_located NonPositiveFloat.
Proof.
  intros names l a Hin. unfold NonPositiveFloat. destruct (float_le a zero).
  - apply errors_located_Valid.
  - apply errors_located_one. exact Hin.
Qed.

Lemma instance_of_located (cls : BusClass) : check_located (instance_of cls).
Proof.
  intros names l a Hin. unfold instance_of.
  destruct (issubclass (bus_class a) cls).
  - apply errors_located_Valid.
  - apply errors_located_one. exact Hin.
Qed.

Lemma non_empty_located : check_located Device.non_empty.
Proof.
  intros names l a Hin. unfold Device.non_empty. destruct (String.eqb a "").
  - apply errors_located_one. exact Hin.
  - apply errors_located_Valid.
Qed.

Lemma nullable_located {A : Type} (check : string -> A -> Validation A) :
  check_located check -> check_located (nullable check).
Proof.
  intros Hc names l [a|] Hin; simpl.
  - apply errors_located_fmap. apply Hc. exact Hin.
  - apply errors_located_Valid.
Qed.

Lemma required_located {A : Type} (check : string -> A -> Validation A)
  (names : list string) (l : string) (k : kwarg A) :
  check_located check -> In l names ->
  errors_located names (required check l k).
Proof.
  intros Hc Hin. destruct k as [|a]; simpl.
  - apply errors_located_one. exact Hin.
  - apply Hc. exact Hin.
Qed.

Lemma with_default_located {A : Type} (check : string -> A -> Validation A)
  (names : list string) (default : A) (l : string) (k : kwarg A) :
  check_located check -> In l names ->
  errors_located names (with_default check default l k).
Proof.
  intros Hc Hin. destruct k as [|a]; simpl.
  - apply errors_located_Valid.
  - apply Hc. exact Hin.
Qed.

(** The check of a field is one of the checks above. *)
Ltac check_is_located :=
  solve [ repeat first [ apply nullable_located | apply any_located
                       | apply ge_0_located | apply le_0_located
                       | apply NonNegativeFloat_located
                       | apply NonPositiveFloat_located
                       | apply instance_of_located ] ].

(** A field name is among the names of the class. *)
Ltac in_names := solve [cbv; repeat first [left; reflexivity | right]].

(** Goes through the fields of a constructor, last field first. *)
Ltac located :=
  repeat (apply errors_located_ap;
          [| first [ apply required_located;
                     [check_is_located | in_names]
                   | apply with_default_located;
                     [check_is_located | in_names] ]]);
  apply errors_located_ap; [apply errors_located_Valid|].

Lemma Branch_errors_located (names : list string) (a : Branch.kwargs) :
  In "name" names -> errors_located names (Branch.new a).
Proof.
  intros Hin. unfold Branch.new, Device.new.
  apply errors_located_ap; [apply errors_located_Valid|].
  apply errors_located_ap; [apply errors_located_Valid|].
  apply required_located; [apply non_empty_located | exact Hin].
Qed.

Lemma ACBranch_errors_located (names : list string) (a : ACBranch.kwargs) :
  incl ACBranch_model_fields names -> errors_located names (ACBranch.new a).
Proof.
  intros Hi.
  refine (errors_located_incl Hi _).
  unfold ACBranch.new. located.
  apply Branch_errors_located. in_names.
Qed.

Lemma DCBranch_errors_located (names : list string) (a : DCBranch.kwargs) :
  incl DCBranch_model_fields names -> errors_located names (DCBranch.new a).
Proof.
  intros Hi.
  refine (errors_located_incl Hi _).
  unfold DCBranch.new. located.
  apply Branch_errors_located. in_names.
Qed.

(** X8: a constructor that fails reports at least one error, and every
    error it reports is located at a field the class declares or
    inherits. *)
Theorem failures_name_declared_fields :
  (forall a, errors_located Branch_model_fields (Branch.new a)) /\
  (forall a, errors_located ACBranch_model_fields (ACBranch.new a)) /\
  (forall a, errors_located MonitoredLine_model_fields (MonitoredLine.new a)) /\
  (forall a, errors_located ACBranch_model_fields (Line.new a)) /\
  (forall a, errors_located ACBranch_model_fields (Transformer2W.new a)) /\
  (forall a, errors_located DCBranch_model_fields (DCBranch.new a)) /\
  (forall a,
      errors_located AreaInterchange_model_fields (AreaInterchange.new a)) /\
  (forall a,
      errors_located TModelHVDCLine_model_fields (TModelHVDCLine.new a)).
Proof.
  repeat match goal with |- _ /\ _ => split end; intros a.
  - apply Branch_errors_located. in_names.
  - apply ACBranch_errors_located. apply incl_refl.
  - unfold MonitoredLine.new. located.
    apply ACBranch_errors_located. apply incl_appl, incl_refl.
  - unfold Line.new. located. apply ACBranch_errors_located, incl_refl.
  - unfold Transformer2W.new. located.
    apply ACBranch_errors_located, incl_refl.
  - apply DCBranch_errors_located. apply incl_refl.
  - unfold AreaInterchange.new. located.
    apply Branch_errors_located. in_names.
  - unfold TModelHVDCLine.new. located.
    apply DCBranch_errors_located. apply incl_appl, incl_refl.
Qed.

Lemma failures_name_declared_fields_witness :
  [ {| loc := "from_bus"; type := missing |} ] <> [] /\
  Forall (fun e => In (loc e) ACBranch_model_fields)
    [ {| loc := "from_bus"; type := missing |} ].
Proof.
  exact (proj1 (proj2 failures_name_declared_fields)
           ACBranch_without_from_bus
           [ {| loc := "from_bus"; type := missing |} ] eq_refl).
Defined.

(** ** The errors of a class that extends another *)

Lemma MonitoredLine_errors_located (a : MonitoredLine.kwargs) :
  errors_located MonitoredLine_model_fields (MonitoredLine.new a).
Proof.
  unfold MonitoredLine.new. located.
  apply ACBranch_errors_located. apply incl_appl, incl_refl.
Qed.

Lemma TModelHVDCLine_errors_located (a : TModelHVDCLine.kwargs) :
  errors_located TModelHVDCLine_model_fields (TModelHVDCLine.new a).
Proof.
  unfold TModelHVDCLine.new. located.
  apply DCBranch_errors_located. apply incl_appl, incl_refl.
Qed.

Lemma ap_errors {A B : Type} (f : Validation (A -> B)) (x : Validation A) :
  errors_of (f <*> x) = errors_of f ++ errors_of x.
Proof.
  destruct f, x; simpl; rewrite ?app_nil_r; reflexivity.
Qed.

Lemma Invalid_errors_of {A : Type} (v : Validation A) :
  errors_of v <> [] -> v = Invalid (errors_of v).
Proof. destruct v; simpl; [congruence | reflexivity]. Qed.

Lemma errors_of_optional_any {A : Type} (default : option A) (l : string)
  (k : kwarg (option A)) :
  errors_of (with_default (nullable any) default l k) = [].
Proof. destruct k as [|[a|]]; reflexivity. Qed.

Lemma errors_of_optional {A : Type} (check : string -> A -> Validation A)
  (ok : A -> bool) (t : ErrorType) (default : option A) (l : string)
  (k : kwarg (option A)) :
  (forall a, check l a
             = if ok a then Valid a
               else Invalid [ {| loc := l; type := t |} ]) ->
  errors_of (with_default (nullable check) default l k)
  = optional_errors ok l t k.
Proof.
  intros Hc. destruct k as [|[a|]]; simpl; try reflexivity.
  rewrite Hc. unfold violation. destruct (ok a); reflexivity.
Qed.

Lemma errors_of_passed {A : Type} (check : string -> A -> Validation A)
  (ok : A -> bool) (t : ErrorType) (default : A) (l : string)
  (k : kwarg A) :
  (forall a, check l a
             = if ok a then Valid a
               else Invalid [ {| loc := l; type := t |} ]) ->
  errors_of (with_default check default l k) = passed_errors ok l t k.
Proof.
  intros Hc. destruct k as [|a]; simpl; try reflexivity.
  rewrite Hc. unfold violation. destruct (ok a); reflexivity.
Qed.

Lemma MonitoredLine_errors (a : MonitoredLine.kwargs) :
  errors_of (MonitoredLine.new a)
  = errors_of (ACBranch.new (MonitoredLine.base a))
    ++ MonitoredLine_own_errors a.
Proof.
  unfold MonitoredLine.new, MonitoredLine_own_errors.
  repeat rewrite ap_errors. unfold instance. rewrite errors_of_optional_any.
  rewrite (errors_of_optional ge_0 (fun q => float_le zero (magnitude q))
             greater_than_equal) by reflexivity.
  rewrite (errors_of_optional le_0 (fun q => float_le (magnitude q) zero)
             less_than_equal) by reflexivity.
  simpl. rewrite app_nil_r, <- app_assoc. reflexivity.
Qed.

Lemma TModelHVDCLine_errors (a : TModelHVDCLine.kwargs) :
  errors_of (TModelHVDCLine.new a)
  = errors_of (DCBranch.new (TModelHVDCLine.base a))
    ++ TModelHVDCLine_own_errors a.
Proof.
  unfold TModelHVDCLine.new, TModelHVDCLine_own_errors.
  repeat rewrite ap_errors. unfold instance.
  repeat rewrite (errors_of_optional NonNegativeFloat
                    (fun v => float_le zero v) greater_than_equal)
    by reflexivity.
  rewrite (errors_of_optional NonPositiveFloat (fun v => float_le v zero)
             less_than_equal) by reflexivity.
  rewrite (errors_of_passed NonNegativeFloat (fun v => float_le zero v)
             greater_than_equal) by reflexivity.
  simpl. repeat rewrite <- app_assoc. reflexivity.
Qed.

(** X7: the errors of a [MonitoredLine] or of a [TModelHVDCLine] call are
    the errors of its inherited part, constructed as an [ACBranch], resp.
    a [DCBranch], followed by the errors of the fields the class declares
    itself, in field order, none of them left out: when the inherited
    part fails the list starts with its errors, and when it constructs
    the call fails exactly when one of the class's own fields does, with
    exactly those errors. *)
Theorem inherited_errors_come_first :
  (forall a errs,
      ACBranch.new (MonitoredLine.base a) = Invalid errs ->
      MonitoredLine.new a = Invalid (errs ++ MonitoredLine_own_errors a)) /\
  (forall a b,
      ACBranch.new (MonitoredLine.base a) = Valid b ->
      MonitoredLine_own_errors a <> [] ->
      MonitoredLine.new a = Invalid (MonitoredLine_own_errors a)) /\
  (forall a b,
      ACBranch.new (MonitoredLine.base a) = Valid b ->
      MonitoredLine_own_errors a = [] ->
      exists m, MonitoredLine.new a = Valid m) /\
  (forall a errs,
      DCBranch.new (TModelHVDCLine.base a) = Invalid errs ->
      TModelHVDCLine.new a
      = Invalid (errs ++ TModelHVDCLine_own_errors a)) /\
  (forall a d,
      DCBranch.new (TModelHVDCLine.base a) = Valid d ->
      TModelHVDCLine_own_errors a <> [] ->
      TModelHVDCLine.new a = Invalid (TModelHVDCLine_own_errors a)) /\
  (forall a d,
      DCBranch.new (TModelHVDCLine.base a) = Valid d ->
      TModelHVDCLine_own_errors a = [] ->
      exists h, TModelHVDCLine.new a = Valid h).
Proof.
  repeat match goal with |- _ /\ _ => split end.
  - intros a errs H. pose proof (MonitoredLine_errors a) as E.
    rewrite H in E. simpl errors_of in E.
    destruct (MonitoredLine.new a) as [m|e] eqn:N; simpl in E.
    + unfold MonitoredLine.new in N. invert_ap N. congruence.
    + rewrite E. reflexivity.
  - intros a b H Hne. pose proof (MonitoredLine_errors a) as E.
    rewrite H in E. simpl in E. rewrite <- E in *.
    apply Invalid_errors_of. exact Hne.
  - intros a b H He. pose proof (MonitoredLine_errors a) as E.
    rewrite H, He in E. simpl in E.
    destruct (MonitoredLine.new a) as [m|e] eqn:N; [eauto|].
    simpl in E. subst e.
    destruct (@MonitoredLine_errors_located a [] N) as [Hn _].
    congruence.
  - intros a errs H. pose proof (TModelHVDCLine_errors a) as E.
    rewrite H in E. simpl errors_of in E.
    destruct (TModelHVDCLine.new a) as [m|e] eqn:N; simpl in E.
    + unfold TModelHVDCLine.new in N. invert_ap N. congruence.
    + rewrite E. reflexivity.
  - intros a b H Hne. pose proof (TModelHVDCLine_errors a) as E.
    rewrite H in E. simpl in E. rewrite <- E in *.
    apply Invalid_errors_of. exact Hne.
  - intros a b H He. pose proof (TModelHVDCLine_errors a) as E.
    rewrite H, He in E. simpl in E.
    destruct (TModelHVDCLine.new a) as [m|e] eqn:N; [eauto|].
    simpl in E. subst e.
    destruct (@TModelHVDCLine_errors_located a [] N) as [Hn _].
    congruence.
Qed.

Lemma inherited_errors_come_first_witness :
  MonitoredLine.new MonitoredLine_two_errors
  = Invalid [ {| loc := "from_bus"; type := missing |};
              {| loc := "rating_down"; type := less_than_equal |} ].
Proof.
  exact (proj1 inherited_errors_come_first MonitoredLine_two_errors
           [ {| loc := "from_bus"; type := missing |} ] eq_refl).
Defined.

(** ** Limits on the two sides of zero *)

Lemma float_le_through_zero (a b : pyfloat) :
  float_le a zero = true -> float_le zero b = true -> float_le a b = true.
Proof.
  destruct a as [p| | |], b as [q| | |]; simpl; try congruence.
  intros Ha Hb. apply Qle_bool_iff. apply Qle_bool_iff in Ha, Hb.
  apply Qle_trans with (y := 0%Q); assumption.
Qed.

(** X9: the sign constraints keep a lower limit at or below its upper
    limit: on every [AreaInterchange], [min_power_flow <= max_power_flow];
    on every [MonitoredLine] and [TModelHVDCLine] that holds both ratings,
    [rating_down <= rating_up]. *)
Theorem lower_limit_le_upper_limit :
  (forall a i,
      AreaInterchange.new a = Valid i ->
      float_le (magnitude (AreaInterchange.min_power_flow i))
               (magnitude (AreaInterchange.max_power_flow i)) = true) /\
  (forall a m down up,
      MonitoredLine.new a = Valid m ->
      MonitoredLine.rating_down m = Some down ->
      MonitoredLine.rating_up m = Some up ->
      float_le (magnitude down) (magnitude up) = true) /\
  (forall a h down up,
      TModelHVDCLine.new a = Valid h ->
      TModelHVDCLine.rating_down h = Some down ->
      TModelHVDCLine.rating_up h = Some up ->
      float_le down up = true).
Proof.
  repeat match goal with |- _ /\ _ => split end.
  - intros a i H. unfold AreaInterchange.new in H. invert_ap H. fields_valid.
    cbn [AreaInterchange.max_power_flow AreaInterchange.min_power_flow].
    apply float_le_through_zero; tauto.
  - intros a m down up H Hd Hu. unfold MonitoredLine.new in H. invert_ap H.
    fields_valid.
    cbn [MonitoredLine.rating_up MonitoredLine.rating_down] in Hd, Hu.
    subst.
    repeat match goal with H : _ /\ _ |- _ => destruct H end.
    apply float_le_through_zero; auto.
  - intros a h down up H Hd Hu. unfold TModelHVDCLine.new in H. invert_ap H.
    fields_valid.
    cbn [TModelHVDCLine.rating_up TModelHVDCLine.rating_down] in Hd, Hu.
    subst.
    repeat match goal with H : _ /\ _ |- _ => destruct H end.
    apply float_le_through_zero; auto.
Qed.

Lemma lower_limit_le_upper_limit_witness :
  float_le (magnitude (ActivePower (Fin (-1)) "MW"))
           (magnitude (ActivePower (Fin 1) "MW")) = true.
Proof.
  exact (proj1 lower_limit_le_upper_limit
           (AreaInterchange_limited (Passed (ActivePower (Fin 1) "MW"))
              (Passed (ActivePower (Fin (-1)) "MW"))) _ eq_refl).
Defined.

(** ** Values on the wrong side of zero *)

Lemma NonNegativeFloat_reports (l : string) (v : pyfloat) :
  float_lt v zero = true ->
  reports (NonNegativeFloat l v) {| loc := l; type := greater_than_equal |}.
Proof.
  intros H. unfold NonNegativeFloat. rewrite (float_lt_not_ge _ _ H).
  eexists. split; [reflexivity|]. left. reflexivity.
Qed.

Lemma NonPositiveFloat_reports (l : string) (v : pyfloat) :
  float_lt zero v = true ->
  reports (NonPositiveFloat l v) {| loc := l; type := less_than_equal |}.
Proof.
  intros H. unfold NonPositiveFloat. rewrite (float_lt_not_ge _ _ H).
  eexists. split; [reflexivity|]. left. reflexivity.
Qed.

Lemma default_reports {A : Type} (check : string -> A -> Validation A)
  (default : A) (l : string) (k : kwarg A) (a : A) (e : ErrorDetails) :
  k = Passed a -> reports (check l a) e ->
  reports (with_default check default l k) e.
Proof. intros -> H. exact H. Qed.

(** X10: [TModelHVDCLine] rejects with [SignConstraintError], at the field
    concerned, a [rating_up], [losses], [resistance], [inductance] or
    [capacitance] below zero and a [rating_down] above zero, whatever the
    other arguments are. *)
Theorem TModelHVDCLine_rejects_wrong_sign (a : TModelHVDCLine.kwargs)
  (v : pyfloat) :
  (TModelHVDCLine.rating_up a = Passed (Some v) -> float_lt v zero = true ->
   fails_with (TModelHVDCLine.new a) "rating_up" SignConstraintError) /\
  (TModelHVDCLine.rating_down a = Passed (Some v) -> float_lt zero v = true ->
   fails_with (TModelHVDCLine.new a) "rating_down" SignConstraintError) /\
  (TModelHVDCLine.losses a = Passed v -> float_lt v zero = true ->
   fails_with (TModelHVDCLine.new a) "losses" SignConstraintError) /\
  (TModelHVDCLine.resistance a = Passed (Some v) -> float_lt v zero = true ->
   fails_with (TModelHVDCLine.new a) "resistance" SignConstraintError) /\
  (TModelHVDCLine.inductance a = Passed (Some v) -> float_lt v zero = true ->
   fails_with (TModelHVDCLine.new a) "inductance" SignConstraintError) /\
  (TModelHVDCLine.capacitance a = Passed (Some v) -> float_lt v zero = true ->
   fails_with (TModelHVDCLine.new a) "capacitance" SignConstraintError).
Proof.
  repeat match goal with |- _ /\ _ => split end; intros Hk Hv;
    (eapply fails_with_reports;
     [ unfold TModelHVDCLine.new;
       report_field
         ltac:(first
                 [ apply (optional_reports _ _ _ Hk);
                   first [ apply NonNegativeFloat_reports; exact Hv
                         | apply NonPositiveFloat_reports; exact Hv ]
                 | apply (default_reports _ _ _ Hk);
                   apply NonNegativeFloat_reports; exact Hv ])
     | reflexivity ]).
Qed.

Lemma TModelHVDCLine_rejects_wrong_sign_witness :
  fails_with
    (TModelHVDCLine.new
       (with_rating_down (Passed (Some (Fin 80))) TModelHVDCLine_all_None))
    "rating_down" SignConstraintError.
Proof.
  exact (proj1 (proj2 (TModelHVDCLine_rejects_wrong_sign
           (with_rating_down (Passed (Some (Fin 80))) TModelHVDCLine_all_None)
           (Fin 80))) eq_refl eq_refl).
Defined.

(** X11: [MonitoredLine] rejects with [SignConstraintError] any [rating_up]
    below zero and any [rating_down] above zero, whatever the other
    arguments are. *)
Theorem MonitoredLine_rejects_wrong_sign (a : MonitoredLine.kwargs)
  (q : Quantity) :
  (MonitoredLine.rating_up a = Passed (Some q) ->
   float_lt (magnitude q) zero = true ->
   fails_with (MonitoredLine.new a) "rating_up" SignConstraintError) /\
  (MonitoredLine.rating_down a = Passed (Some q) ->
   float_lt zero (magnitude q) = true ->
   fails_with (MonitoredLine.new a) "rating_down" SignConstraintError).
Proof.
  split; intros Hk Hv;
    (eapply fails_with_reports;
     [ unfold MonitoredLine.new;
       report_field
         ltac:(apply (optional_reports _ _ _ Hk);
               first [ apply ge_0_reports | apply le_0_reports ];
               apply float_lt_not_ge; exact Hv)
     | reflexivity ]).
Qed.

Lemma MonitoredLine_rejects_wrong_sign_witness :
  fails_with
    (MonitoredLine.new
       (MonitoredLine_rated (Passed (Some (ActivePower (Fin (-3)) "MW")))
          Omitted))
    "rating_up" SignConstraintError.
Proof.
  exact (proj1 (MonitoredLine_rejects_wrong_sign
           (MonitoredLine_rated (Passed (Some (ActivePower (Fin (-3)) "MW")))
              Omitted)
           (ActivePower (Fin (-3)) "MW")) eq_refl eq_refl).
Defined.

(** ** Required buses *)

(** X12: [to_bus] is required by [ACBranch], and [from_bus] and [to_bus] by
    [DCBranch]: a call that omits one fails with [MissingFieldError] at
    that field, also when made through [MonitoredLine], [Line],
    [Transformer2W] or [TModelHVDCLine]. *)
Theorem buses_required :
  (forall a, ACBranch.to_bus a = Omitted ->
             fails_with (ACBranch.new a) "to_bus" MissingFieldError) /\
  (forall a, ACBranch.to_bus (MonitoredLine.base a) = Omitted ->
             fails_with (MonitoredLine.new a) "to_bus" MissingFieldError) /\
  (forall a, ACBranch.to_bus (Line.base a) = Omitted ->
             fails_with (Line.new a) "to_bus" MissingFieldError) /\
  (forall a, ACBranch.to_bus (Transformer2W.base a) = Omitted ->
             fails_with (Transformer2W.new a) "to_bus" MissingFieldError) /\
  (forall a, DCBranch.from_bus a = Omitted ->
             fails_with (DCBranch.new a) "from_bus" MissingFieldError) /\
  (forall a, DCBranch.to_bus a = Omitted ->
             fails_with (DCBranch.new a) "to_bus" MissingFieldError) /\
  (forall a, DCBranch.from_bus (TModelHVDCLine.base a) = Omitted ->
             fails_with (TModelHVDCLine.new a) "from_bus" MissingFieldError) /\
  (forall a, DCBranch.to_bus (TModelHVDCLine.base a) = Omitted ->
             fails_with (TModelHVDCLine.new a) "to_bus" MissingFieldError).
Proof.
  assert (AC : forall a, ACBranch.to_bus a = Omitted ->
             reports (ACBranch.new a) {| loc := "to_bus"; type := missing |}).
  { intros a H. unfold ACBranch.new.
    report_field ltac:(rewrite H; apply required_Omitted_reports). }
  assert (DF : forall a, DCBranch.from_bus a = Omitted ->
             reports (DCBranch.new a) {| loc := "from_bus"; type := missing |}).
  { intros a H. unfold DCBranch.new.
    report_field ltac:(rewrite H; apply required_Omitted_reports). }
  assert (DT : forall a, DCBranch.to_bus a = Omitted ->
             reports (DCBranch.new a) {| loc := "to_bus"; type := missing |}).
  { intros a H. unfold DCBranch.new.
    report_field ltac:(rewrite H; apply required_Omitted_reports). }
  repeat match goal with |- _ /\ _ => split end; intros a H.
  - exact (fails_with_reports (AC _ H) eq_refl).
  - exact (fails_with_reports
             (proj2 MonitoredLine_extends _ _ (AC _ H)) eq_refl).
  - exact (fails_with_reports (proj2 Line_extends _ _ (AC _ H)) eq_refl).
  - exact (fails_with_reports
             (proj2 Transformer2W_extends _ _ (AC _ H)) eq_refl).
  - exact (fails_with_reports (DF _ H) eq_refl).
  - exact (fails_with_reports (DT _ H) eq_refl).
  - exact (fails_with_reports
             (proj2 TModelHVDCLine_extends _ _ (DF _ H)) eq_refl).
  - exact (fails_with_reports
             (proj2 TModelHVDCLine_extends _ _ (DT _ H)) eq_refl).
Qed.

Lemma buses_required_witness :
  fails_with
    (DCBranch.new
       {| DCBranch.base :=
            {| Branch.base := {| Device.name := Passed "D1" |} |};
          DCBranch.from_bus := Passed DCBus_example;
          DCBranch.to_bus := Omitted;
          DCBranch.active_power_flow := Omitted;
          DCBranch.active_power_limits_from := Omitted;
          DCBranch.active_power_limits_to := Omitted;
          DCBranch.reactive_power_limits_from := Omitted;
          DCBranch.reactive_power_limits_to := Omitted |})
    "to_bus" MissingFieldError.
Proof.
  apply (proj1 (proj2 (proj2 (proj2 (proj2 (proj2 buses_required)))))).
  reflexivity.
Defined.

(** ** Field serializers and dumps *)

Lemma range_serializer_injective (m1 m2 : option MinMax.t) :
  match m1 with
  | Some m => PyDict [ ("min", PyFloat (MinMax.min m));
                       ("max", PyFloat (MinMax.max m)) ]
  | None => PyNone
  end
  = match m2 with
    | Some m => PyDict [ ("min", PyFloat (MinMax.min m));
                         ("max", PyFloat (MinMax.max m)) ]
    | None => PyNone
    end ->
  m1 = m2.
Proof.
  destruct m1 as [[lo1 hi1]|], m2 as [[lo2 hi2]|]; simpl; intros H;
    try discriminate; [|reflexivity].
  injection H as -> ->. reflexivity.
Qed.

(** X13: the range serializers lose nothing: two inputs (a range or [None])
    that serialize to the same value are equal, whichever instances the
    serializers are called on; in particular only [None] serializes to
    [None]. *)
Theorem serializers_injective (m1 m2 : option MinMax.t) :
  (forall s1 s2,
      ACBranch.serialize_angle_limits s1 m1
      = ACBranch.serialize_angle_limits s2 m2 -> m1 = m2) /\
  (forall s1 s2,
      DCBranch.serialize_active_power_limits_from s1 m1
      = DCBranch.serialize_active_power_limits_from s2 m2 -> m1 = m2) /\
  (forall s1 s2,
      DCBranch.serialize_active_power_limits_to s1 m1
      = DCBranch.serialize_active_power_limits_to s2 m2 -> m1 = m2) /\
  (forall s1 s2,
      DCBranch.serialize_reactive_power_limits_from s1 m1
      = DCBranch.serialize_reactive_power_limits_from s2 m2 -> m1 = m2) /\
  (forall s1 s2,
      DCBranch.serialize_reactive_power_limits_to s1 m1
      = DCBranch.serialize_reactive_power_limits_to s2 m2 -> m1 = m2) /\
  (forall s, ACBranch.serialize_angle_limits s m1 = PyNone -> m1 = None).
Proof.
  repeat match goal with |- _ /\ _ => split end;
    try (intros s1 s2 H; exact (range_serializer_injective _ _ H)).
  intros s H. destruct m1; [discriminate | reflexivity].
Qed.

Lemma serializers_injective_witness :
  Some {| MinMax.min := Fin 5; MinMax.max := Fin 10 |}
  = Some {| MinMax.min := Fin 5; MinMax.max := Fin 10 |}.
Proof.
  destruct MonitoredLine.example as [m|e] eqn:E; [|discriminate E].
  exact (proj1 (serializers_injective
                  (Some {| MinMax.min := Fin 5; MinMax.max := Fin 10 |})
                  (Some {| MinMax.min := Fin 5; MinMax.max := Fin 10 |}))
           (MonitoredLine.base m) (MonitoredLine.base m) eq_refl).
Defined.










(** ** The parser registry *)

(** X15: a lookup in [parser_list] gives [PlexosParser] for ["plexos"],
    [ReEDSParser] for ["reeds-US"] and [SiennaParser] for ["sienna"], and
    finds nothing under any other name, other spellings of these three
    included. *)
Theorem parser_list_lookup (name : string) :
  (forall p,
      lookup name parser_list = Some p <->
      (name = "plexos" /\ p = PlexosParser) \/
      (name = "reeds-US" /\ p = ReEDSParser) \/
      (name = "sienna" /\ p = SiennaParser)) /\
  (lookup name parser_list = None <->
   name <> "plexos" /\ name <> "reeds-US" /\ name <> "sienna").
Proof.
  unfold parser_list. simpl.
  destruct (String.eqb_spec name "plexos") as [->|N1];
    [| destruct (String.eqb_spec name "reeds-US") as [->|N2];
       [| destruct (String.eqb_spec name "sienna") as [->|N3] ] ].
  - split; [intros p|]; split.
    + intros H. injection H as <-. auto.
    + intros [[_ ->]|[[H _]|[H _]]]; [reflexivity|discriminate|discriminate].
    + discriminate.
    + intros [H _]. congruence.
  - split; [intros p|]; split.
    + intros H. injection H as <-. auto.
    + intros [[H _]|[[_ ->]|[H _]]]; [discriminate|reflexivity|discriminate].
    + discriminate.
    + intros (_ & H & _). congruence.
  - split; [intros p|]; split.
    + intros H. injection H as <-. auto.
    + intros [[H _]|[[H _]|[_ ->]]]; [discriminate|discriminate|reflexivity].
    + discriminate.
    + intros (_ & _ & H). congruence.
  - split; [intros p|]; split.
    + discriminate.
    + intros [[H _]|[[H _]|[H _]]]; congruence.
    + auto.
    + reflexivity.
Qed.

Lemma parser_list_lookup_witness :
  ("reeds-US" = "plexos" /\ ReEDSParser = PlexosParser) \/
  ("reeds-US" = "reeds-US" /\ ReEDSParser = ReEDSParser) \/
  ("reeds-US" = "sienna" /\ ReEDSParser = SiennaParser).
Proof.
  exact (proj1 (proj1 (parser_list_lookup "reeds-US") ReEDSParser) eq_refl).
Defined.

(** ** The other example factories *)

(** X16: the examples of [Branch], [Line], [Transformer2W] and
    [AreaInterchange] validate: the line and the transformer are rated
    100 MW and join the example AC bus to itself, the interchange has the
    limits 100 MW and -100 MW between the example area and itself. *)
Theorem other_examples_validate :
  (exists b,
      Branch.example = Valid b /\
      Device.name (Branch.base b) = "ExampleBranch") /\
  (exists l,
      Line.example = Valid l /\
      ACBranch.rating (Line.base l) = Some (ActivePower (Fin 100) "MW") /\
      ACBranch.from_bus (Line.base l) = ACBus_example /\
      ACBranch.to_bus (Line.base l) = ACBus_example) /\
  (exists w,
      Transformer2W.example = Valid w /\
      ACBranch.rating (Transformer2W.base w)
      = Some (ActivePower (Fin 100) "MW") /\
      ACBranch.from_bus (Transformer2W.base w) = ACBus_example /\
      ACBranch.to_bus (Transformer2W.base w) = ACBus_example) /\
  (exists i,
      AreaInterchange.example = Valid i /\
      AreaInterchange.max_power_flow i = ActivePower (Fin 100) "MW" /\
      AreaInterchange.min_power_flow i = ActivePower (Fin (-100)) "MW" /\
      AreaInterchange.from_area i = Some Area_example /\
      AreaInterchange.to_area i = Some Area_example).
Proof.
  repeat match goal with |- _ /\ _ => split end;
    (eexists; split; [vm_compute; reflexivity|]; repeat split).
Qed.

Lemma Line_Transformer2W_validate_as_ACBranch_witness :
  exists l,
    Line.new {| Line.base := ACBranch_rated Omitted |} = Valid l.
Proof.
  exists {| Line.base :=
              {| ACBranch.base :=
                   {| Branch.base := {| Device.name := "L1" |} |};
                 ACBranch.from_bus := ACBus_example;
                 ACBranch.to_bus := ACBus_example;
                 ACBranch.r := None;
                 ACBranch.x := None;
                 ACBranch.primary_shunt := None;
                 ACBranch.rating := None;
                 ACBranch.active_power_flow := None;
                 ACBranch.reactive_power_flow := None;
                 ACBranch.angle_limits := None |} |}.
  apply (proj2 (proj1 Line_Transformer2W_validate_as_ACBranch
                  {| Line.base := ACBranch_rated Omitted |} _)).
  reflexivity.
Defined.
